(** * seo-mcp: the tool layer and the CapSolver token broker

    A shallow embedding of [src/seo_mcp/server.py].  Python values are an
    inductive type, the process environment is a finite map, the network is a
    scripted sequence of replies, and the effects of the module (printing,
    sleeping, HTTP requests, calls into the sibling modules) are threaded
    through a state-and-exception monad whose state keeps a chronological log
    of everything the code did. *)

From Stdlib Require Import ZArith Lia Ascii String.
From stdpp Require Import base strings list gmap pretty.

Local Open Scope string_scope.

(** ** Python values *)

(** The values the module handles: what [json] decoding yields, plus the
    strings and dictionaries the module builds itself.  Numbers are the
    integer ones (the solver's [errorId] and the HTTP status codes). *)
#[warnings="-register-all"]
Inductive pyval : Type :=
| PNone
| PBool (b : bool)
| PInt (n : Z)
| PStr (s : string)
| PList (l : list pyval)
| PDict (d : gmap string pyval).

(** Python truth value testing, as used by [not x] and [if x]. *)
Definition truthy (v : pyval) : bool :=
  match v with
  | PNone => false
  | PBool b => b
  | PInt n => negb (n =? 0)%Z
  | PStr s => negb (String.eqb s "")
  | PList l => match l with [] => false | _ => true end
  | PDict d => negb (bool_decide (d = ∅))
  end.

(** [v == "literal"]: only a [str] compares equal to a [str]. *)
Definition py_eq_str (v : pyval) (s : string) : bool :=
  match v with
  | PStr t => String.eqb t s
  | _ => false
  end.

(** ** Exceptions *)

(** The subclasses of [requests.RequestException] that the calls of the
    module can raise: the transport ones, [HTTPError] from
    [raise_for_status], and [requests.exceptions.JSONDecodeError] from
    [Response.json]. *)
Inductive request_error : Type :=
| ConnectionError
| Timeout
| HTTPError
| JSONDecodeError.

Inductive exn_class : Type :=
| RequestException (kind : request_error)
| AttributeError
| PlainException.

Record exn : Type := Exn { exn_cls : exn_class; exn_msg : string }.

(** [isinstance(e, requests.RequestException)] *)
Definition is_RequestException (e : exn) : bool :=
  match exn_cls e with
  | RequestException _ => true
  | AttributeError | PlainException => false
  end.

(** [Exception(msg)] *)
Definition Exception (msg : string) : exn := Exn PlainException msg.

(** ** The world *)

(** What one [requests.post] meets: either the request itself raises (no
    connection, no answer within the timeout), or a response comes back with
    a status code, a reason phrase and a body that is JSON ([inr]) or is not
    ([inl], with the decoder's complaint). *)
Inductive reply : Type :=
| Unreachable (kind : request_error) (msg : string)
| Response (status_code : Z) (reason : string) (body : string + pyval).

(** The sibling modules of the package whose functions the tools call. *)
Inductive upstream_fn : Type :=
| Fn_get_signature_and_overview
| Fn_get_backlinks
| Fn_get_keyword_ideas
| Fn_check_traffic
| Fn_get_keyword_difficulty.

Inductive event : Type :=
| EvPrint (line : string)
| EvSleep (seconds : Z)
| EvPost (url : string) (json : pyval) (timeout : Z)
| EvCall (fn : upstream_fn) (args : list pyval).

(** [environ] is [os.environ]; [replies] is the solver double, the reply to
    the k-th request of the run; [sent] counts the requests made so far;
    [log] is everything the code did, oldest first. *)
Record world : Type := World {
  environ : gmap string string;
  replies : nat -> reply;
  sent : nat;
  log : list event
}.

Definition record (e : event) (w : world) : world :=
  World (environ w) (replies w) (sent w) (log w ++ [e]).

(** ** The monad *)

(** A computation returns, raises, or is still running when the fuel given
    to its [while True] loop is used up. *)
Inductive result (A : Type) : Type :=
| Ret (a : A)
| Raise (e : exn)
| OutOfFuel.
Arguments Ret {A} a.
Arguments Raise {A} e.
Arguments OutOfFuel {A}.

Definition M (A : Type) : Type := world -> result A * world.

Definition ret {A} (a : A) : M A := fun w => (Ret a, w).

Definition raise {A} (e : exn) : M A := fun w => (Raise e, w).

Definition bind {A B} (m : M A) (k : A -> M B) : M B :=
  fun w =>
    match m w with
    | (Ret a, w') => k a w'
    | (Raise e, w') => (Raise e, w')
    | (OutOfFuel, w') => (OutOfFuel, w')
    end.

(** [try: body  except <caught> as e: handler e] *)
Definition try_except {A} (body : M A) (caught : exn -> bool)
    (handler : exn -> M A) : M A :=
  fun w =>
    match body w with
    | (Raise e, w') => if caught e then handler e w' else (Raise e, w')
    | r => r
    end.

Notation "'let*' x ':=' m 'in' k" := (bind m (fun x => k))
  (at level 10, x pattern, k at level 200).
Notation "m '>>' k" := (bind m (fun _ => k))
  (at level 100, right associativity).

(** ** Primitives of the run time and of the libraries *)

Definition print (line : string) : M unit :=
  fun w => (Ret tt, record (EvPrint line) w).

Definition time_sleep (seconds : Z) : M unit :=
  fun w => (Ret tt, record (EvSleep seconds) w).

(** [os.environ.get(name)] *)
Definition os_environ_get (name : string) : M pyval :=
  fun w =>
    (Ret (match environ w !! name with Some v => PStr v | None => PNone end), w).

(** A [requests.Response], as far as the module looks at it. *)
Record response : Type := Resp {
  resp_url : string;
  resp_status : Z;
  resp_reason : string;
  resp_body : string + pyval
}.

(** [requests.post(url, json=payload, timeout=t)] *)
Definition requests_post (url : string) (payload : pyval) (timeout : Z)
    : M response :=
  fun w =>
    let w' := World (environ w) (replies w) (S (sent w))
                    (log w ++ [EvPost url payload timeout]) in
    match replies w (sent w) with
    | Unreachable kind msg => (Raise (Exn (RequestException kind) msg), w')
    | Response code reason body => (Ret (Resp url code reason body), w')
    end.

(** [res.raise_for_status()] *)
Definition raise_for_status (res : response) : M unit :=
  let code := resp_status res in
  if ((400 <=? code) && (code <? 500))%Z then
    raise (Exn (RequestException HTTPError) (pretty code ++ " Client Error: " ++ resp_reason res
                          ++ " for url: " ++ resp_url res))
  else if ((500 <=? code) && (code <? 600))%Z then
    raise (Exn (RequestException HTTPError) (pretty code ++ " Server Error: " ++ resp_reason res
                          ++ " for url: " ++ resp_url res))
  else ret tt.

(** [res.json()] *)
Definition res_json (res : response) : M pyval :=
  match resp_body res with
  | inl complaint => raise (Exn (RequestException JSONDecodeError) complaint)
  | inr v => ret v
  end.

(** [type(v).__name__] *)
Definition py_type_name (v : pyval) : string :=
  match v with
  | PNone => "NoneType"
  | PBool _ => "bool"
  | PInt _ => "int"
  | PStr _ => "str"
  | PList _ => "list"
  | PDict _ => "dict"
  end.

(** What [v.get] raises when [v] is no [dict]. *)
Definition no_get (v : pyval) : exn :=
  Exn AttributeError ("'" ++ py_type_name v ++ "' object has no attribute 'get'").

(** [obj.get(key, default)]: a [dict] method, any other value has none. *)
Definition py_get (obj : pyval) (key : string) (dflt : pyval) : M pyval :=
  match obj with
  | PDict d => ret (default dflt (d !! key))
  | _ => raise (no_get obj)
  end.

(** ** [urllib.parse.quote]

    A [str] is modelled by its UTF-8 bytes, which is what [quote] works on
    after [string.encode('utf-8')]. *)

(** [_ALWAYS_SAFE]: letters, digits and [_.-~]. *)
Definition always_safe (c : ascii) : bool :=
  let n := N_of_ascii c in
  ((65 <=? n) && (n <=? 90) || (97 <=? n) && (n <=? 122)
   || (48 <=? n) && (n <=? 57)
   || (n =? 95) || (n =? 46) || (n =? 45) || (n =? 126))%N.

(** The default [safe='/'] on top of the always safe bytes. *)
Definition quote_safe (c : ascii) : bool :=
  always_safe c || Ascii.eqb c "/"%char.

Definition hex_digit (n : N) : ascii :=
  ascii_of_N (if (n <? 10)%N then 48 + n else 55 + n)%N.

(** ['%{:02X}'.format(b)] *)
Definition percent_escape (c : ascii) : string :=
  let n := N_of_ascii c in
  String "%"%char (String (hex_digit (n / 16)) (String (hex_digit (n mod 16)) "")).

Fixpoint quote (s : string) : string :=
  match s with
  | EmptyString => EmptyString
  | String c rest =>
      (if quote_safe c then String c "" else percent_escape c) ++ quote rest
  end.

(** ** The token broker *)

Definition CAPSOLVER_CREATE_TASK : string := "https://api.capsolver.com/createTask".
Definition CAPSOLVER_GET_TASK_RESULT : string := "https://api.capsolver.com/getTaskResult".

(** The two JSON payloads [get_capsolver_token] builds. *)
Definition create_task_payload (api_key : pyval) (site_url : string) : pyval :=
  PDict (<["clientKey" := api_key]>
         {["task" := PDict (<["type" := PStr "AntiTurnstileTaskProxyLess"]>
                           (<["websiteKey" := PStr "0x4AAAAAAAAzi9ITzSN9xKMi"]>
                            {["websiteURL" := PStr site_url]}))]}).

Definition task_result_payload (api_key task_id : pyval) : pyval :=
  PDict (<["clientKey" := api_key]> {["taskId" := task_id]}).

(** One turn of [while True:] in [get_capsolver_token]: [Some v] when the
    turn ends in [return v], [None] when it falls through to the next turn. *)
Definition poll_once (api_key task_id : pyval) : M (option pyval) :=
  time_sleep 2 >>
  let payload := task_result_payload api_key task_id in
  let* res := requests_post CAPSOLVER_GET_TASK_RESULT payload 20 in
  raise_for_status res >>
  let* resp := res_json res in
  let* status := py_get resp "status" PNone in
  if py_eq_str status "ready" then
    let* solution := py_get resp "solution" (PDict ∅) in
    let* token := py_get solution "token" PNone in
    ret (Some token)
  else
    let* status := py_get resp "status" PNone in
    if py_eq_str status "failed" then ret (Some PNone)
    else
      let* error_id := py_get resp "errorId" PNone in
      if truthy error_id then ret (Some PNone) else ret None.

(** [while True:], given [fuel] turns. *)
Fixpoint poll_loop (fuel : nat) (api_key task_id : pyval) : M pyval :=
  match fuel with
  | O => fun w => (OutOfFuel, w)
  | S fuel' =>
      let* returned := poll_once api_key task_id in
      match returned with
      | Some v => ret v
      | None => poll_loop fuel' api_key task_id
      end
  end.

Definition get_capsolver_token (fuel : nat) (site_url : string) : M pyval :=
  let* api_key := os_environ_get "CAPSOLVER_API_KEY" in
  if negb (truthy api_key) then
    print "Error: CAPSOLVER_API_KEY environment variable not set." >>
    ret PNone
  else
    let payload := create_task_payload api_key site_url in
    try_except
      (let* res := requests_post CAPSOLVER_CREATE_TASK payload 20 in
       raise_for_status res >>
       let* resp := res_json res in
       let* task_id := py_get resp "taskId" PNone in
       if negb (truthy task_id) then ret PNone
       else poll_loop fuel api_key task_id)
      is_RequestException
      (fun e =>
         print ("Error communicating with CapSolver: " ++ exn_msg e) >>
         ret PNone).

Definition get_token_for_url (fuel : nat) (site_url : string) : M pyval :=
  let* token := get_capsolver_token fuel site_url in
  if negb (truthy token) then
    raise (Exception ("Failed to get verification token for URL: " ++ site_url))
  else ret token.

(** ** The tools *)

(** A call into a sibling module: the call is logged and the double's
    outcome comes back. *)
Definition upstream {A} (fn : upstream_fn) (args : list pyval) (outcome : result A)
    : M A :=
  fun w => (outcome, record (EvCall fn args) w).

Section Tools.

Variable fuel : nat.

(** The functions imported from [seo_mcp.backlinks], [seo_mcp.keywords]
    and [seo_mcp.traffic], as deterministic doubles. *)
Variable get_signature_and_overview_impl :
  pyval -> string -> result (pyval * pyval * pyval).
Variable get_backlinks_impl : pyval -> pyval -> string -> result pyval.
Variable get_keyword_ideas_impl : pyval -> string -> string -> string -> result pyval.
Variable check_traffic_impl : pyval -> string -> string -> string -> result pyval.
Variable get_keyword_difficulty_impl : pyval -> string -> string -> result pyval.

Definition get_signature_and_overview (token : pyval) (domain : string) :=
  upstream Fn_get_signature_and_overview [token; PStr domain]
    (get_signature_and_overview_impl token domain).

Definition get_backlinks (signature valid_until : pyval) (domain : string) :=
  upstream Fn_get_backlinks [signature; valid_until; PStr domain]
    (get_backlinks_impl signature valid_until domain).

Definition get_keyword_ideas (token : pyval) (keyword country search_engine : string) :=
  upstream Fn_get_keyword_ideas
    [token; PStr keyword; PStr country; PStr search_engine]
    (get_keyword_ideas_impl token keyword country search_engine).

Definition check_traffic (token : pyval) (domain_or_url mode country : string) :=
  upstream Fn_check_traffic [token; PStr domain_or_url; PStr mode; PStr country]
    (check_traffic_impl token domain_or_url mode country).

Definition get_keyword_difficulty (token : pyval) (keyword country : string) :=
  upstream Fn_get_keyword_difficulty [token; PStr keyword; PStr country]
    (get_keyword_difficulty_impl token keyword country).

Definition get_backlinks_list (domain : string) : M pyval :=
  let* token := get_token_for_url fuel
    ("https://ahrefs.com/backlink-checker/?input=" ++ domain ++ "&mode=subdomains") in
  let* triple := get_signature_and_overview token domain in
  let '(signature, valid_until, overview_data) := triple in
  if negb (truthy signature) || negb (truthy valid_until) then
    raise (Exception ("Failed to get signature for domain: " ++ domain))
  else
    let* backlinks := get_backlinks signature valid_until domain in
    ret (PDict (<["overview" := overview_data]> {["backlinks" := backlinks]})).

Definition keyword_generator (keyword country search_engine : string) : M pyval :=
  let* token := get_token_for_url fuel
    ("https://ahrefs.com/keyword-generator/?country=" ++ country
     ++ "&input=" ++ quote keyword) in
  get_keyword_ideas token keyword country search_engine.

Definition get_traffic (domain_or_url country mode : string) : M pyval :=
  let* token := get_token_for_url fuel
    ("https://ahrefs.com/traffic-checker/?input=" ++ domain_or_url
     ++ "&mode=" ++ mode) in
  check_traffic token domain_or_url mode country.

Definition keyword_difficulty (keyword country : string) : M pyval :=
  let* token := get_token_for_url fuel
    ("https://ahrefs.com/keyword-difficulty/?country=" ++ country
     ++ "&input=" ++ quote keyword) in
  get_keyword_difficulty token keyword country.

(** What [@mcp.tool()] registers: a call names one of the four tools and
    gives its arguments; an omitted argument takes its default. *)
Inductive tool_call : Type :=
| Call_get_backlinks_list (domain : string)
| Call_keyword_generator (keyword : string) (country search_engine : option string)
| Call_get_traffic (domain_or_url : string) (country mode : option string)
| Call_keyword_difficulty (keyword : string) (country : option string).

Definition invoke (c : tool_call) : M pyval :=
  match c with
  | Call_get_backlinks_list domain => get_backlinks_list domain
  | Call_keyword_generator keyword country search_engine =>
      keyword_generator keyword (default "us" country) (default "Google" search_engine)
  | Call_get_traffic domain_or_url country mode =>
      get_traffic domain_or_url (default "None" country) (default "subdomains" mode)
  | Call_keyword_difficulty keyword country =>
      keyword_difficulty keyword (default "us" country)
  end.

(** What a tool does once it holds its token. *)
Definition after_token (c : tool_call) (token : pyval) : M pyval :=
  match c with
  | Call_get_backlinks_list domain =>
      let* triple := get_signature_and_overview token domain in
      let '(signature, valid_until, overview_data) := triple in
      if negb (truthy signature) || negb (truthy valid_until) then
        raise (Exception ("Failed to get signature for domain: " ++ domain))
      else
        let* backlinks := get_backlinks signature valid_until domain in
        ret (PDict (<["overview" := overview_data]> {["backlinks" := backlinks]}))
  | Call_keyword_generator keyword country search_engine =>
      get_keyword_ideas token keyword
        (default "us" country) (default "Google" search_engine)
  | Call_get_traffic domain_or_url country mode =>
      check_traffic token domain_or_url
        (default "subdomains" mode) (default "None" country)
  | Call_keyword_difficulty keyword country =>
      get_keyword_difficulty token keyword (default "us" country)
  end.

End Tools.

(** ** Vocabulary of the statements *)

(** The URL each tool asks a token for. *)
Definition tool_url (c : tool_call) : string :=
  match c with
  | Call_get_backlinks_list domain =>
      "https://ahrefs.com/backlink-checker/?input=" ++ domain ++ "&mode=subdomains"
  | Call_keyword_generator keyword country _ =>
      "https://ahrefs.com/keyword-generator/?country=" ++ default "us" country
      ++ "&input=" ++ quote keyword
  | Call_get_traffic domain_or_url _ mode =>
      "https://ahrefs.com/traffic-checker/?input=" ++ domain_or_url
      ++ "&mode=" ++ default "subdomains" mode
  | Call_keyword_difficulty keyword country =>
      "https://ahrefs.com/keyword-difficulty/?country=" ++ default "us" country
      ++ "&input=" ++ quote keyword
  end.

(** The calls into the sibling modules that a log records, in order. *)
Definition upstream_calls (l : list event) : list (upstream_fn * list pyval) :=
  omap (fun e => match e with EvCall fn args => Some (fn, args) | _ => None end) l.

(** The HTTP requests that a log records, in order. *)
Definition posts (l : list event) : list (string * pyval) :=
  omap (fun e => match e with EvPost url json _ => Some (url, json) | _ => None end) l.

(** [raise_for_status] lets the status code pass. *)
Definition http_ok (code : Z) : bool :=
  negb ((400 <=? code) && (code <? 600))%Z.

(** The reply is a response that passes [raise_for_status] and whose body
    decodes to the JSON object [d]. *)
Definition reply_dict (r : reply) : option (gmap string pyval) :=
  match r with
  | Response code _ (inr (PDict d)) => if http_ok code then Some d else None
  | _ => None
  end.

(** The reply makes the request, [raise_for_status] or [json] raise. *)
Definition reply_fails (r : reply) : bool :=
  match r with
  | Unreachable _ _ => true
  | Response code _ body =>
      negb (http_ok code) || match body with inl _ => true | inr _ => false end
  end.

(** [d.get("status") == s] *)
Definition status_is (d : gmap string pyval) (s : string) : bool :=
  py_eq_str (default PNone (d !! "status")) s.

(** The response bears an error indication: a truthy [errorId]. *)
Definition bears_error (d : gmap string pyval) : bool :=
  truthy (default PNone (d !! "errorId")).

(** A poll response after which the loop goes round again. *)
Definition keeps_polling (d : gmap string pyval) : bool :=
  negb (status_is d "ready") && negb (status_is d "failed") && negb (bears_error d).

(** A poll response with [status: pending] and no error indication. *)
Definition is_pending (d : gmap string pyval) : bool :=
  status_is d "pending" && negb (bears_error d).

(** A poll response with [status: ready] that carries [token]. *)
Definition is_ready_with (d : gmap string pyval) (token : pyval) : Prop :=
  status_is d "ready" = true /\
  exists solution, d !! "solution" = Some (PDict solution) /\
                   solution !! "token" = Some token.

(** The reply to the [i]-th request from now on. *)
Definition next_reply (w : world) (i : nat) : reply := replies w (sent w + i).

(** The world after one more turn of the polling loop: slept, asked. *)
Definition polled (api_key task_id : pyval) (w : world) : world :=
  World (environ w) (replies w) (S (sent w))
        (log w ++ [EvSleep 2;
                   EvPost CAPSOLVER_GET_TASK_RESULT
                          (task_result_payload api_key task_id) 20]).

(** The world after the task was submitted. *)
Definition submitted (api_key : pyval) (site_url : string) (w : world) : world :=
  World (environ w) (replies w) (S (sent w))
        (log w ++ [EvPost CAPSOLVER_CREATE_TASK
                          (create_task_payload api_key site_url) 20]).

(** The solver credential is configured: the variable is set and not empty. *)
Definition api_key_of (w : world) : option string :=
  match environ w !! "CAPSOLVER_API_KEY" with
  | Some k => if String.eqb k "" then None else Some k
  | None => None
  end.

(** RFC 3986, section 2.2: the reserved characters. *)
Definition url_reserved (c : ascii) : bool :=
  existsb (Ascii.eqb c) (list_ascii_of_string ":/?#[]@!$&'()*+,;=").

(** ** Vocabulary of the proofs, and doubles to run the code on *)

(** The world after [n] turns. *)
Definition polled_n (n : nat) (api_key task_id : pyval) (w : world) : world :=
  Nat.iter n (polled api_key task_id) w.

(** The [except requests.RequestException as e:] clause. *)
Definition on_request_exception (e : exn) : M pyval :=
  print ("Error communicating with CapSolver: " ++ exn_msg e) >> ret PNone.

(** The events of one broker run that polls [n] times. *)
Definition broker_events (n : nat) (api_key task_id : pyval) (site_url : string)
    : list event :=
  EvPost CAPSOLVER_CREATE_TASK (create_task_payload api_key site_url) 20
  :: List.concat (replicate n
       [EvSleep 2;
        EvPost CAPSOLVER_GET_TASK_RESULT (task_result_payload api_key task_id) 20]).

(** The number of [getTaskResult] requests in a stretch of log. *)
Definition poll_count (l : list event) : nat :=
  List.length (List.filter (fun p => String.eqb (fst p) CAPSOLVER_GET_TASK_RESULT)
                           (posts l)).

(** A [200 OK] response whose body is the JSON object [d]. *)
Definition ok_json (d : gmap string pyval) : reply :=
  Response 200 "OK" (inr (PDict d)).

(** A solver double: a task identifier, one pending poll, one ready poll
    with a token. *)
Definition created_reply : gmap string pyval :=
  <["errorId" := PInt 0]> {["taskId" := PStr "task-1"]}.

Definition pending_reply : gmap string pyval :=
  <["errorId" := PInt 0]> {["status" := PStr "pending"]}.

Definition ready_reply : gmap string pyval :=
  <["errorId" := PInt 0]>
  (<["status" := PStr "ready"]>
   {["solution" := PDict {["token" := PStr "tok-abc"]}]}).

Definition solver_pending_then_ready (k : nat) : reply :=
  match k with
  | 0 => ok_json created_reply
  | 1 => ok_json pending_reply
  | 2 => ok_json ready_reply
  | _ => Unreachable Timeout "read timed out"
  end.

Definition configured (script : nat -> reply) : world :=
  World {["CAPSOLVER_API_KEY" := "CAP-KEY"]} script 0 [].

(** The solver double of the counterexample: the poll response is [ready],
    carries a token, and bears an error indication as well. *)
Definition ready_reply_with_error : gmap string pyval :=
  <["errorId" := PInt 1]>
  (<["status" := PStr "ready"]>
   {["solution" := PDict {["token" := PStr "tok-abc"]}]}).

Definition solver_ready_with_error (k : nat) : reply :=
  match k with
  | 0 => ok_json created_reply
  | 1 => ok_json ready_reply_with_error
  | _ => Unreachable Timeout "read timed out"
  end.

(** Solver doubles for the failure paths: a submission that is refused, and
    a task that fails on the first poll. *)
Definition refused_reply : gmap string pyval :=
  <["errorId" := PInt 1]> {["errorCode" := PStr "ERROR_KEY_DENIED_ACCESS"]}.

Definition failed_reply : gmap string pyval :=
  <["errorId" := PInt 1]> {["status" := PStr "failed"]}.

Definition solver_refuses (k : nat) : reply :=
  match k with
  | 0 => ok_json refused_reply
  | _ => Unreachable Timeout "read timed out"
  end.

Definition solver_fails_first_poll (k : nat) : reply :=
  match k with
  | 0 => ok_json created_reply
  | 1 => ok_json failed_reply
  | _ => Unreachable Timeout "read timed out"
  end.

(** Solver doubles for the transport failures: no connection at all, a bad
    gateway on the second poll, and a submission answered with a JSON list. *)
Definition solver_unreachable (k : nat) : reply :=
  Unreachable ConnectionError "connection refused".

Definition solver_bad_gateway_on_poll (k : nat) : reply :=
  match k with
  | 0 => ok_json created_reply
  | 1 => ok_json pending_reply
  | _ => Response 502 "Bad Gateway" (inl "Expecting value")
  end.

Definition solver_answers_list (k : nat) : reply :=
  Response 200 "OK" (inr (PList [])).

(** [w'] comes after [w] in a run that made no call into the sibling
    modules: same environment, same solver, a longer log. *)
Definition quiet_step (w w' : world) : Prop :=
  environ w' = environ w /\ replies w' = replies w /\ sent w <= sent w' /\
  exists l, log w' = (log w ++ l)%list /\ upstream_calls l = [].

(** A computation that makes no call into the sibling modules. *)
Definition Quiet {A} (m : M A) : Prop := forall w, quiet_step w (snd (m w)).

(** The characters [quote] can produce: the always safe ones, the slash
    and the percent sign of an escape. *)
Definition quoted_char (c : ascii) : bool :=
  always_safe c || Ascii.eqb c "/" || Ascii.eqb c "%".

(** Doubles for the functions of the sibling modules. *)
Definition signature_double (token : pyval) (domain : string)
    : result (pyval * pyval * pyval) :=
  Ret (PStr "sig-1", PInt 1893456000, PDict {["domain_rating" := PInt 57]}).

Definition no_signature_double (token : pyval) (domain : string)
    : result (pyval * pyval * pyval) :=
  Ret (PNone, PNone, PNone).

Definition backlinks_double (signature valid_until : pyval) (domain : string)
    : result pyval :=
  Ret (PList [PDict {["url" := PStr "https://blog.example/post"]}]).

Definition ideas_double (token : pyval) (keyword country search_engine : string)
    : result pyval :=
  Ret (PList [PStr (keyword ++ " tips")]).

Definition traffic_double (token : pyval) (domain_or_url mode country : string)
    : result pyval :=
  Ret (PDict {["traffic" := PInt 1200]}).

Definition difficulty_double (token : pyval) (keyword country : string)
    : result pyval :=
  Ret (PDict {["difficulty" := PInt 42]}).

(** The server with its doubles plugged in. *)
Definition serve (fuel : nat) (c : tool_call) : M pyval :=
  invoke fuel signature_double backlinks_double ideas_double traffic_double
         difficulty_double c.

(** A world without the solver credential. *)
Definition unconfigured (script : nat -> reply) : world := World ∅ script 0 [].

(** ** More vocabulary *)

(** The reply is a response that passes [raise_for_status] and whose body
    decodes to the JSON value [v]. *)
Definition reply_json (r : reply) : option pyval :=
  match r with
  | Response code _ (inr v) => if http_ok code then Some v else None
  | _ => None
  end.

(** The task identifier the polls of a run carry: the [taskId] of the
    submission response. *)
Definition submitted_task_id (w : world) : pyval :=
  match reply_dict (next_reply w 0) with
  | Some d0 => default PNone (d0 !! "taskId")
  | None => PNone
  end.

(** The value of a hexadecimal digit, in either case. *)
Definition hex_value (c : ascii) : option N :=
  let n := N_of_ascii c in
  if ((48 <=? n) && (n <=? 57))%N then Some (n - 48)%N
  else if ((65 <=? n) && (n <=? 70))%N then Some (n - 55)%N
  else if ((97 <=? n) && (n <=? 102))%N then Some (n - 87)%N
  else None.

(** The decoder a receiver of the URL applies: every [%XX] escape becomes
    the byte it stands for, everything else stays. *)
Fixpoint unquote (s : string) : string :=
  match s with
  | EmptyString => EmptyString
  | String c t =>
      match t with
      | String h (String l rest) =>
          if Ascii.eqb c "%" then
            match hex_value h, hex_value l with
            | Some a, Some b => String (ascii_of_N (16 * a + b)) (unquote rest)
            | _, _ => String c (unquote t)
            end
          else String c (unquote t)
      | _ => String c (unquote t)
      end
  end.

(** The number of bytes of a string that [quote] escapes. *)
Fixpoint escaped_count (s : string) : nat :=
  match s with
  | EmptyString => 0
  | String c rest => (if quote_safe c then 0 else 1) + escaped_count rest
  end.

(** A solver double that accepts the task and then answers every poll with
    an empty JSON object. *)
Definition solver_never_done (k : nat) : reply :=
  match k with
  | 0 => ok_json created_reply
  | _ => ok_json ∅
  end.

(** A solver double whose [ready] response has no solution. *)
Definition ready_reply_without_solution : gmap string pyval :=
  {["status" := PStr "ready"]}.

Definition solver_ready_without_solution (k : nat) : reply :=
  match k with
  | 0 => ok_json created_reply
  | 1 => ok_json ready_reply_without_solution
  | _ => Unreachable Timeout "read timed out"
  end.

(** A solver double whose [ready] response has [solution: null]. *)
Definition ready_reply_null_solution : gmap string pyval :=
  <["status" := PStr "ready"]> {["solution" := PNone]}.

Definition solver_ready_null_solution (k : nat) : reply :=
  match k with
  | 0 => ok_json created_reply
  | 1 => ok_json ready_reply_null_solution
  | _ => Unreachable Timeout "read timed out"
  end.

(** A world whose credential is set to the empty string. *)
Definition empty_key (script : nat -> reply) : world :=
  World {["CAPSOLVER_API_KEY" := ""]} script 0 [].

(** Upstream doubles that raise. *)
Definition upstream_error : exn := Exception "upstream returned 403".

Definition failing_signature_double (token : pyval) (domain : string)
    : result (pyval * pyval * pyval) :=
  Raise upstream_error.

Definition failing_backlinks_double (signature valid_until : pyval) (domain : string)
    : result pyval :=
  Raise upstream_error.

(** The bytes [quote] leaves as they are, written out: [_ALWAYS_SAFE] and
    the slash. *)
Definition SAFE_BYTES : string :=
  "ABCDEFGHIJKLMNOPQRSTUVWXYZabcdefghijklmnopqrstuvwxyz0123456789_.-~/".

(** An upper-case hexadecimal digit. *)
Definition upper_hex (c : ascii) : bool :=
  existsb (Ascii.eqb c) (list_ascii_of_string "0123456789ABCDEF").

(** [escape] is the [%XX] escape of the byte [c]: a percent sign and the
    two upper-case hexadecimal digits of its value. *)
Definition is_escape_of (c : ascii) (escape : string) : Prop :=
  exists h l a b,
    escape = String "%" (String h (String l "")) /\
    upper_hex h = true /\ upper_hex l = true /\
    hex_value h = Some a /\ hex_value l = Some b /\
    (16 * a + b)%N = N_of_ascii c.

(** The [websiteURL] of a [createTask] payload. *)
Definition payload_website_url (payload : pyval) : option string :=
  match payload with
  | PDict d =>
      match d !! "task" with
      | Some (PDict task) =>
          match task !! "websiteURL" with
          | Some (PStr url) => Some url
          | _ => None
          end
      | _ => None
      end
  | _ => None
  end.

(** The URL a run asked the solver a token for: the [websiteURL] of the
    first request it logged, when that is a [createTask] request. *)
Definition asked_url (before after : world) : option string :=
  match head (posts (drop (List.length (log before)) (log after))) with
  | Some (url, payload) =>
      if String.eqb url CAPSOLVER_CREATE_TASK then payload_website_url payload
      else None
  | None => None
  end.

(** * Properties *)

(** ** One turn of the polling loop *)

Lemma http_ok_passes (res : response) (w : world) :
  http_ok (resp_status res) = true -> raise_for_status res w = (Ret tt, w).
Proof.
  unfold http_ok, raise_for_status. intros H.
  destruct (400 <=? resp_status res)%Z eqn:E4;
    destruct (resp_status res <? 500)%Z eqn:E5;
    destruct (500 <=? resp_status res)%Z eqn:E6;
    destruct (resp_status res <? 600)%Z eqn:E7; simpl in *;
    try reflexivity; try discriminate; lia.
Qed.

Lemma http_bad_raises (res : response) (w : world) :
  http_ok (resp_status res) = false ->
  exists msg, raise_for_status res w = (Raise (Exn (RequestException HTTPError) msg), w).
Proof.
  unfold http_ok, raise_for_status. intros H.
  destruct (400 <=? resp_status res)%Z eqn:E4;
    destruct (resp_status res <? 500)%Z eqn:E5;
    destruct (500 <=? resp_status res)%Z eqn:E6;
    destruct (resp_status res <? 600)%Z eqn:E7; simpl in *;
    try discriminate; try (eexists; reflexivity); lia.
Qed.

Lemma polled_log (api_key task_id : pyval) (w : world) :
  World (environ w) (replies w) (S (sent w))
        ((log w ++ [EvSleep 2])
         ++ [EvPost CAPSOLVER_GET_TASK_RESULT (task_result_payload api_key task_id) 20])
  = polled api_key task_id w.
Proof. unfold polled. now rewrite <- app_assoc. Qed.

(** Runs a turn of the loop symbolically up to the decoded body. *)
Ltac run_poll_once w :=
  unfold poll_once, bind, time_sleep, requests_post, record; simpl;
  rewrite ?polled_log;
  destruct (replies w (sent w)) as [kind msg | code reason body] eqn:Hreply; simpl;
  [ | match goal with |- context [raise_for_status ?r ?w0] =>
        destruct (http_ok (resp_status r)) eqn:Hok;
        [ rewrite (http_ok_passes r w0 Hok)
        | let m := fresh "m" in destruct (http_bad_raises r w0 Hok) as [m ->] ]
      end; simpl in * ].

(** Whatever the reply, a turn sleeps once and asks once. *)
Lemma poll_once_world (api_key task_id : pyval) (w : world) :
  snd (poll_once api_key task_id w) = polled api_key task_id w.
Proof.
  run_poll_once w; try reflexivity.
  unfold res_json, py_get, ret, raise; simpl.
  destruct body as [c | [ | b | n | s | l | d]]; simpl; try reflexivity.
  destruct (py_eq_str (default PNone (d !! "status")) "ready"); simpl.
  - destruct (default (PDict ∅) (d !! "solution")); reflexivity.
  - destruct (py_eq_str (default PNone (d !! "status")) "failed"); simpl; [reflexivity|].
    destruct (truthy (default PNone (d !! "errorId"))); reflexivity.
Qed.

(** A reply that is no usable response makes the turn raise a
    [RequestException]. *)
Lemma poll_once_fails (api_key task_id : pyval) (w : world) :
  reply_fails (next_reply w 0) = true ->
  exists e, is_RequestException e = true /\
            fst (poll_once api_key task_id w) = Raise e.
Proof.
  unfold next_reply. rewrite Nat.add_0_r. intros Hf.
  run_poll_once w; simpl in Hf.
  - eexists; split; [|reflexivity]; reflexivity.
  - rewrite Hok in Hf. simpl in Hf. destruct body; [|discriminate].
    eexists; split; [|reflexivity]; reflexivity.
  - eexists; split; [|reflexivity]; reflexivity.
Qed.

(** What a turn makes of a JSON object. *)
Lemma poll_once_dict (api_key task_id : pyval) (w : world) (d : gmap string pyval) :
  reply_dict (next_reply w 0) = Some d ->
  fst (poll_once api_key task_id w) =
    if status_is d "ready" then
      match default (PDict ∅) (d !! "solution") with
      | PDict solution => Ret (Some (default PNone (solution !! "token")))
      | other => Raise (no_get other)
      end
    else if status_is d "failed" || bears_error d then Ret (Some PNone)
    else Ret None.
Proof.
  unfold next_reply, status_is, bears_error. rewrite Nat.add_0_r. intros Hd.
  run_poll_once w; simpl in Hd; try discriminate.
  - rewrite Hok in Hd. destruct body as [c | [ | b | n | s | l | d']]; try discriminate.
    injection Hd as ->.
    unfold res_json, py_get, ret, raise, bind; simpl.
    destruct (py_eq_str (default PNone (d !! "status")) "ready"); simpl.
    + destruct (default (PDict ∅) (d !! "solution")); reflexivity.
    + destruct (py_eq_str (default PNone (d !! "status")) "failed"); simpl; [reflexivity|].
      destruct (truthy (default PNone (d !! "errorId"))); reflexivity.
  - rewrite Hok in Hd. destruct body as [c | [ | b | n | s | l | d']]; discriminate.
Qed.

(** A turn that returns a value other than [None] got a [ready] response
    and returns the token found in it. *)
Lemma poll_once_token (api_key task_id : pyval) (w : world) (v : pyval) :
  fst (poll_once api_key task_id w) = Ret (Some v) -> v <> PNone ->
  exists d, reply_dict (next_reply w 0) = Some d /\ is_ready_with d v.
Proof.
  intros Hrun Hv.
  destruct (reply_dict (next_reply w 0)) as [d|] eqn:Hd.
  - exists d. split; [reflexivity|].
    rewrite (poll_once_dict _ _ _ _ Hd) in Hrun.
    unfold is_ready_with.
    destruct (status_is d "ready").
    + split; [reflexivity|].
      destruct (d !! "solution") as [[ | | | | | solution]|] eqn:Hs; simpl in Hrun;
        try discriminate.
      * exists solution. split; [reflexivity|].
        destruct (solution !! "token") as [t|] eqn:Ht; simpl in Hrun.
        -- congruence.
        -- congruence.
      * rewrite lookup_empty in Hrun. simpl in Hrun. congruence.
    + destruct (status_is d "failed" || bears_error d); congruence.
  - exfalso. revert Hrun Hd. unfold next_reply. rewrite Nat.add_0_r.
    run_poll_once w; intros Hrun Hd; try discriminate.
    rewrite Hok in Hd.
    destruct body as [c | [ | b | n | s | l | d']]; discriminate.
Qed.

(** ** The polling loop *)

Lemma poll_loop_S (fuel : nat) (api_key task_id : pyval) (w : world) :
  poll_loop (S fuel) api_key task_id w =
    match fst (poll_once api_key task_id w) with
    | Ret (Some v) => (Ret v, polled api_key task_id w)
    | Ret None => poll_loop fuel api_key task_id (polled api_key task_id w)
    | Raise e => (Raise e, polled api_key task_id w)
    | OutOfFuel => (OutOfFuel, polled api_key task_id w)
    end.
Proof.
  simpl. unfold bind.
  rewrite <- (poll_once_world api_key task_id w).
  destruct (poll_once api_key task_id w) as [[[v|] | e | ] w']; reflexivity.
Qed.

Lemma polled_n_S (n : nat) (api_key task_id : pyval) (w : world) :
  polled_n (S n) api_key task_id w
  = polled_n n api_key task_id (polled api_key task_id w).
Proof. unfold polled_n. now rewrite Nat.iter_succ_r. Qed.

Lemma polled_n_environ n api_key task_id w :
  environ (polled_n n api_key task_id w) = environ w.
Proof. induction n; simpl; auto. Qed.

Lemma polled_n_replies n api_key task_id w :
  replies (polled_n n api_key task_id w) = replies w.
Proof. induction n; simpl; auto. Qed.

Lemma polled_n_sent n api_key task_id w :
  sent (polled_n n api_key task_id w) = sent w + n.
Proof. induction n; simpl; [lia | rewrite IHn; lia]. Qed.

Lemma concat_replicate_snoc {A} (n : nat) (x : list A) :
  (List.concat (replicate n x) ++ x = List.concat (replicate (S n) x))%list.
Proof.
  induction n as [|n IH]; simpl.
  - now rewrite app_nil_r.
  - simpl in IH. now rewrite <- app_assoc, IH.
Qed.

Lemma polled_n_log n api_key task_id w :
  log (polled_n n api_key task_id w)
  = (log w ++ List.concat (replicate n
      [EvSleep 2;
       EvPost CAPSOLVER_GET_TASK_RESULT (task_result_payload api_key task_id) 20]))%list.
Proof.
  induction n.
  - simpl. now rewrite app_nil_r.
  - change (polled_n (S n) api_key task_id w)
      with (polled api_key task_id (polled_n n api_key task_id w)).
    unfold polled at 1. simpl log. rewrite IHn, <- app_assoc. f_equal.
    apply concat_replicate_snoc.
Qed.

Lemma next_reply_polled api_key task_id w i :
  next_reply (polled api_key task_id w) i = next_reply w (S i).
Proof. unfold next_reply, polled. simpl. f_equal. lia. Qed.

(** While the replies keep the loop going, it keeps going. *)
Lemma poll_loop_keeps (n fuel : nat) (api_key task_id : pyval) (w : world) :
  (forall i, i < n ->
     exists d, reply_dict (next_reply w i) = Some d /\ keeps_polling d = true) ->
  poll_loop (n + fuel) api_key task_id w
  = poll_loop fuel api_key task_id (polled_n n api_key task_id w).
Proof.
  revert w. induction n as [|n IH]; intros w Hkeep; [reflexivity|].
  rewrite polled_n_S. change (S n + fuel) with (S (n + fuel)).
  rewrite poll_loop_S.
  destruct (Hkeep 0) as (d & Hd & Hk); [lia|].
  rewrite (poll_once_dict _ _ _ _ Hd).
  unfold keeps_polling in Hk.
  destruct (status_is d "ready"); [discriminate|].
  destruct (status_is d "failed"); [discriminate|].
  destruct (bears_error d); [discriminate|]. simpl.
  apply IH. intros i Hi. rewrite next_reply_polled. apply Hkeep. lia.
Qed.

(** ** Submission *)

Lemma api_key_of_get (w : world) (key : string) :
  api_key_of w = Some key ->
  os_environ_get "CAPSOLVER_API_KEY" w = (Ret (PStr key), w) /\
  truthy (PStr key) = true.
Proof.
  unfold api_key_of, os_environ_get.
  destruct (environ w !! "CAPSOLVER_API_KEY") as [k|]; [|discriminate].
  destruct (String.eqb k "") eqn:E; [discriminate|].
  intros [= ->]. simpl. now rewrite E.
Qed.

Lemma api_key_of_None (w : world) :
  api_key_of w = None ->
  exists v, os_environ_get "CAPSOLVER_API_KEY" w = (Ret v, w) /\ truthy v = false.
Proof.
  unfold api_key_of, os_environ_get.
  destruct (environ w !! "CAPSOLVER_API_KEY") as [k|].
  - destruct (String.eqb k "") eqn:E; [|discriminate].
    intros _. exists (PStr k). simpl. now rewrite E.
  - intros _. now exists PNone.
Qed.

(** Without the credential: a line on the console and [None]. *)
Lemma broker_unconfigured (fuel : nat) (site_url : string) (w : world) :
  api_key_of w = None ->
  get_capsolver_token fuel site_url w
  = (Ret PNone,
     record (EvPrint "Error: CAPSOLVER_API_KEY environment variable not set.") w).
Proof.
  intros H. destruct (api_key_of_None w H) as (v & Hget & Hv).
  unfold get_capsolver_token, bind. rewrite Hget, Hv. reflexivity.
Qed.

(** With the credential, the broker submits the task and goes on according
    to the reply. *)
Lemma broker_submission_fails (fuel : nat) (site_url : string) (w : world) key :
  api_key_of w = Some key ->
  reply_fails (next_reply w 0) = true ->
  exists msg,
    get_capsolver_token fuel site_url w
    = (Ret PNone,
       record (EvPrint ("Error communicating with CapSolver: " ++ msg))
              (submitted (PStr key) site_url w)).
Proof.
  intros Hkey Hf. destruct (api_key_of_get w key Hkey) as [Hget Ht].
  unfold get_capsolver_token, bind at 1. rewrite Hget, Ht.
  change (negb true) with false. cbv iota.
  revert Hf. unfold next_reply. rewrite Nat.add_0_r.
  unfold try_except, bind, requests_post, submitted; cbv beta zeta.
  destruct (replies w (sent w)) as [kind msg | code reason body]; simpl; intros Hf.
  - eexists. reflexivity.
  - match goal with |- context [raise_for_status ?r ?w0] =>
      destruct (http_ok (resp_status r)) eqn:Hok;
      [ rewrite (http_ok_passes r w0 Hok)
      | destruct (http_bad_raises r w0 Hok) as [m ->] ]
    end; simpl in *.
    + rewrite Hok in Hf. destruct body; [|discriminate]. simpl. eexists. reflexivity.
    + eexists. reflexivity.
Qed.

Lemma broker_submission_dict (fuel : nat) (site_url : string) (w : world) key d :
  api_key_of w = Some key ->
  reply_dict (next_reply w 0) = Some d ->
  get_capsolver_token fuel site_url w
  = if truthy (default PNone (d !! "taskId")) then
      try_except (poll_loop fuel (PStr key) (default PNone (d !! "taskId")))
                 is_RequestException on_request_exception
                 (submitted (PStr key) site_url w)
    else (Ret PNone, submitted (PStr key) site_url w).
Proof.
  intros Hkey Hd. destruct (api_key_of_get w key Hkey) as [Hget Ht].
  unfold get_capsolver_token, bind at 1. rewrite Hget, Ht.
  change (negb true) with false. cbv iota.
  revert Hd. unfold next_reply. rewrite Nat.add_0_r.
  unfold try_except, bind, requests_post, submitted; cbv beta zeta.
  destruct (replies w (sent w)) as [kind msg | code reason body]; simpl;
    intros Hd; [discriminate|].
  destruct (http_ok code) eqn:Hok; [|destruct body as [|[]]; discriminate].
  destruct body as [c | [ | b | n | s | l | d']]; try discriminate.
  injection Hd as ->.
  match goal with |- context [raise_for_status ?r ?w0] =>
    rewrite (http_ok_passes r w0 Hok) end.
  simpl. destruct (truthy (default PNone (d !! "taskId"))); reflexivity.
Qed.

Lemma next_reply_submitted api_key site_url w i :
  next_reply (submitted api_key site_url w) i = next_reply w (S i).
Proof. unfold next_reply, submitted. simpl. f_equal. lia. Qed.

Lemma next_reply_polled_n n api_key task_id w i :
  next_reply (polled_n n api_key task_id w) i = next_reply w (n + i).
Proof.
  unfold next_reply. rewrite polled_n_replies, polled_n_sent. f_equal. lia.
Qed.

(** After [n] turns that keep the loop going, the next turn decides. *)
Lemma poll_loop_after (n fuel : nat) (api_key task_id : pyval) (w : world) :
  (forall i, i < n ->
     exists d, reply_dict (next_reply w i) = Some d /\ keeps_polling d = true) ->
  n < fuel ->
  poll_loop fuel api_key task_id w =
    let wn := polled_n n api_key task_id w in
    match fst (poll_once api_key task_id wn) with
    | Ret (Some v) => (Ret v, polled_n (S n) api_key task_id w)
    | Ret None => poll_loop (fuel - S n) api_key task_id
                            (polled_n (S n) api_key task_id w)
    | Raise e => (Raise e, polled_n (S n) api_key task_id w)
    | OutOfFuel => (OutOfFuel, polled_n (S n) api_key task_id w)
    end.
Proof.
  intros Hkeep Hlt.
  replace fuel with (n + S (fuel - S n)) at 1 by lia.
  rewrite (poll_loop_keeps n _ _ _ _ Hkeep), poll_loop_S. reflexivity.
Qed.

Lemma try_except_ret {A} (body : M A) caught handler (w w' : world) (a : A) :
  body w = (Ret a, w') -> try_except body caught handler w = (Ret a, w').
Proof. unfold try_except. now intros ->. Qed.

Lemma try_except_caught {A} (body : M A) caught handler (w w' : world) (e : exn) :
  body w = (Raise e, w') -> caught e = true ->
  try_except body caught handler w = handler e w'.
Proof. unfold try_except. now intros -> ->. Qed.

(** What escapes a [try] was not caught, or comes from the handler. *)
Lemma try_except_raises {A} (body : M A) caught handler (w : world) (e : exn) :
  fst (try_except body caught handler w) = Raise e ->
  caught e = false \/ exists e' w', fst (handler e' w') = Raise e.
Proof.
  unfold try_except. destruct (body w) as [[a | e0 | ] w']; simpl; try discriminate.
  destruct (caught e0) eqn:Hc.
  - intros H. right. eauto.
  - intros [= <-]. now left.
Qed.

Lemma on_request_exception_run (e : exn) (w : world) :
  on_request_exception e w
  = (Ret PNone,
     record (EvPrint ("Error communicating with CapSolver: " ++ exn_msg e)) w).
Proof. reflexivity. Qed.

Lemma py_eq_str_true (v : pyval) (s : string) :
  py_eq_str v s = true -> v = PStr s.
Proof.
  destruct v; simpl; try discriminate.
  intros H. apply String.eqb_eq in H. now subst.
Qed.

Lemma pending_keeps_polling (d : gmap string pyval) :
  is_pending d = true -> keeps_polling d = true.
Proof.
  unfold is_pending, keeps_polling, status_is.
  intros H. apply andb_prop in H as [Hs He].
  apply py_eq_str_true in Hs. rewrite Hs, He. reflexivity.
Qed.

Lemma ready_turn (api_key task_id : pyval) (w : world) d token :
  reply_dict (next_reply w 0) = Some d ->
  is_ready_with d token ->
  fst (poll_once api_key task_id w) = Ret (Some token).
Proof.
  intros Hd (Hs & solution & Hsol & Htok).
  rewrite (poll_once_dict _ _ _ _ Hd), Hs, Hsol. simpl. now rewrite Htok.
Qed.

Lemma failed_turn (api_key task_id : pyval) (w : world) d :
  reply_dict (next_reply w 0) = Some d ->
  status_is d "ready" = false ->
  status_is d "failed" || bears_error d = true ->
  fst (poll_once api_key task_id w) = Ret (Some PNone).
Proof.
  intros Hd Hr Hf. now rewrite (poll_once_dict _ _ _ _ Hd), Hr, Hf.
Qed.

(** A turn falls through only on a response that keeps the loop going. *)
Lemma poll_once_none (api_key task_id : pyval) (w : world) :
  fst (poll_once api_key task_id w) = Ret None ->
  exists d, reply_dict (next_reply w 0) = Some d /\ keeps_polling d = true.
Proof.
  intros Hrun.
  destruct (reply_dict (next_reply w 0)) as [d|] eqn:Hd.
  - exists d. split; [reflexivity|].
    rewrite (poll_once_dict _ _ _ _ Hd) in Hrun. unfold keeps_polling.
    destruct (status_is d "ready").
    + destruct (default (PDict ∅) (d !! "solution")); discriminate.
    + destruct (status_is d "failed"); [discriminate|].
      destruct (bears_error d); [discriminate|reflexivity].
  - exfalso. revert Hrun Hd. unfold next_reply. rewrite Nat.add_0_r.
    run_poll_once w; intros Hrun Hd; try discriminate.
    rewrite Hok in Hd.
    destruct body as [c | [ | b | n | s | l | d']]; discriminate.
Qed.

(** Fuel only decides how long the loop may run: a loop that ended ends
    the same way with more fuel. *)
Lemma poll_loop_more_fuel (fuel extra : nat) (api_key task_id : pyval) (w : world) :
  fst (poll_loop fuel api_key task_id w) <> OutOfFuel ->
  poll_loop (fuel + extra) api_key task_id w = poll_loop fuel api_key task_id w.
Proof.
  revert w. induction fuel as [|fuel IH]; intros w Hend.
  - now contradict Hend.
  - change (S fuel + extra) with (S (fuel + extra)).
    rewrite !poll_loop_S in *.
    destruct (fst (poll_once api_key task_id w)) as [[v|] | e | ]; try reflexivity.
    now apply IH.
Qed.

(** The loop runs out of fuel only if every response so far kept it going. *)
Lemma poll_loop_out_of_fuel (fuel : nat) (api_key task_id : pyval) (w : world) :
  fst (poll_loop fuel api_key task_id w) = OutOfFuel ->
  forall i, i < fuel ->
    exists d, reply_dict (next_reply w i) = Some d /\ keeps_polling d = true.
Proof.
  revert w. induction fuel as [|fuel IH]; intros w Hout i Hi; [lia|].
  rewrite poll_loop_S in Hout.
  destruct (fst (poll_once api_key task_id w)) as [[v|] | e | ] eqn:Hturn;
    try discriminate.
  - destruct i as [|i].
    + now apply poll_once_none with (1 := Hturn).
    + rewrite <- next_reply_polled with (api_key := api_key) (task_id := task_id).
      apply IH; [exact Hout | lia].
  - exfalso. revert Hturn. clear. run_poll_once w; try discriminate.
    unfold res_json, py_get, ret, raise, bind; simpl.
    destruct body as [c | [ | b | n | s | l | d]]; simpl; try discriminate.
    destruct (py_eq_str (default PNone (d !! "status")) "ready"); simpl.
    + destruct (default (PDict ∅) (d !! "solution")); discriminate.
    + destruct (py_eq_str (default PNone (d !! "status")) "failed"); simpl;
        [discriminate|].
      destruct (truthy (default PNone (d !! "errorId"))); discriminate.
Qed.

(** A loop that returns a value other than [None] was kept going by all
    responses but the last, which was [ready] and carried that value. *)
Lemma poll_loop_token (fuel : nat) (api_key task_id : pyval) (w : world) (v : pyval) :
  fst (poll_loop fuel api_key task_id w) = Ret v -> v <> PNone ->
  exists n d,
    n < fuel /\
    (forall i, i < n ->
       exists d', reply_dict (next_reply w i) = Some d' /\ keeps_polling d' = true) /\
    reply_dict (next_reply w n) = Some d /\ is_ready_with d v.
Proof.
  revert w. induction fuel as [|fuel IH]; intros w Hrun Hv; [discriminate|].
  rewrite poll_loop_S in Hrun.
  destruct (fst (poll_once api_key task_id w)) as [[v'|] | e | ] eqn:Hturn;
    simpl in Hrun; try discriminate.
  - injection Hrun as ->.
    destruct (poll_once_token _ _ _ _ Hturn Hv) as (d & Hd & Hready).
    exists 0, d. repeat split; [lia | intros i Hi; lia | exact Hd | apply Hready | apply Hready].
  - destruct (IH _ Hrun Hv) as (n & d & Hn & Hkeep & Hd & Hready).
    exists (S n), d. split; [lia|]. split; [|split].
    + intros [|i] Hi.
      * apply poll_once_none with (1 := Hturn).
      * rewrite <- next_reply_polled with (api_key := api_key) (task_id := task_id).
        apply Hkeep. lia.
    + now rewrite <- next_reply_polled with (api_key := api_key) (task_id := task_id).
    + exact Hready.
Qed.

(** ** The token broker, end to end *)

Lemma broker_events_polls (n : nat) (api_key task_id : pyval) (site_url : string) :
  poll_count (broker_events n api_key task_id site_url) = n.
Proof.
  unfold poll_count, broker_events.
  induction n as [|n IH]; [reflexivity|].
  simpl in *. now rewrite IH.
Qed.

Lemma broker_world (n : nat) (api_key task_id : pyval) (site_url : string) (w : world) :
  let w' := polled_n n api_key task_id (submitted api_key site_url w) in
  environ w' = environ w /\ replies w' = replies w /\
  sent w' = sent w + 1 + n /\
  log w' = (log w ++ broker_events n api_key task_id site_url)%list.
Proof.
  simpl. rewrite polled_n_environ, polled_n_replies, polled_n_sent, polled_n_log.
  unfold submitted, broker_events. simpl.
  repeat split; [lia|]. now rewrite <- app_assoc.
Qed.

(** With the credential and a task identifier, after [n] responses that
    keep the loop going, the broker's outcome is that of the next turn. *)
Lemma broker_after (n fuel : nat) (site_url : string) (w : world) key d0 :
  api_key_of w = Some key ->
  reply_dict (next_reply w 0) = Some d0 ->
  truthy (default PNone (d0 !! "taskId")) = true ->
  (forall i, i < n ->
     exists d, reply_dict (next_reply w (S i)) = Some d /\ keeps_polling d = true) ->
  n < fuel ->
  let task_id := default PNone (d0 !! "taskId") in
  let ws := submitted (PStr key) site_url w in
  get_capsolver_token fuel site_url w
  = try_except (poll_loop fuel (PStr key) task_id)
               is_RequestException on_request_exception ws /\
  poll_loop fuel (PStr key) task_id ws =
    match fst (poll_once (PStr key) task_id (polled_n n (PStr key) task_id ws)) with
    | Ret (Some v) => (Ret v, polled_n (S n) (PStr key) task_id ws)
    | Ret None => poll_loop (fuel - S n) (PStr key) task_id
                            (polled_n (S n) (PStr key) task_id ws)
    | Raise e => (Raise e, polled_n (S n) (PStr key) task_id ws)
    | OutOfFuel => (OutOfFuel, polled_n (S n) (PStr key) task_id ws)
    end.
Proof.
  intros Hkey Hd0 Htid Hkeep Hlt. simpl. split.
  - now rewrite (broker_submission_dict _ _ _ _ _ Hkey Hd0), Htid.
  - apply poll_loop_after; [|exact Hlt].
    intros i Hi. rewrite next_reply_submitted. now apply Hkeep.
Qed.

(** C3. When the solver answers the submission with a task identifier, then
    [n] polls with [status: pending] and then one with [status: ready] that
    carries a token string, [get_capsolver_token] returns exactly that
    string, having made exactly [n + 1] [getTaskResult] requests, each right
    after a [time.sleep(2)], and nothing else after the submission.  The
    spec's double, one pending then one ready response, is [n = 1]. *)
Theorem broker_returns_ready_token
    (fuel n : nat) (site_url : string) (w : world)
    (key : string) (d0 dr : gmap string pyval) (tok : string) :
  api_key_of w = Some key ->
  reply_dict (next_reply w 0) = Some d0 ->
  truthy (default PNone (d0 !! "taskId")) = true ->
  (forall i, i < n ->
     exists d, reply_dict (next_reply w (S i)) = Some d /\ is_pending d = true) ->
  reply_dict (next_reply w (S n)) = Some dr ->
  is_ready_with dr (PStr tok) ->
  n < fuel ->
  exists w',
    get_capsolver_token fuel site_url w = (Ret (PStr tok), w') /\
    sent w' = sent w + 1 + S n /\
    log w' = (log w ++ broker_events (S n) (PStr key)
                         (default PNone (d0 !! "taskId")) site_url)%list /\
    poll_count (broker_events (S n) (PStr key)
                              (default PNone (d0 !! "taskId")) site_url) = S n.
Proof.
  intros Hkey Hd0 Htid Hpend Hdr Hready Hlt.
  assert (Hkeep : forall i, i < n ->
            exists d, reply_dict (next_reply w (S i)) = Some d /\ keeps_polling d = true).
  { intros i Hi. destruct (Hpend i Hi) as (d & Hd & Hp).
    exists d. split; [exact Hd | now apply pending_keeps_polling]. }
  destruct (broker_after n fuel site_url w key d0 Hkey Hd0 Htid Hkeep Hlt)
    as [Hrun Hloop].
  set (tid := default PNone (d0 !! "taskId")) in *.
  set (ws := submitted (PStr key) site_url w) in *.
  exists (polled_n (S n) (PStr key) tid ws).
  assert (Hturn : fst (poll_once (PStr key) tid (polled_n n (PStr key) tid ws))
                  = Ret (Some (PStr tok))).
  { apply ready_turn with (d := dr); [|exact Hready].
    rewrite next_reply_polled_n. unfold ws. rewrite next_reply_submitted.
    now rewrite Nat.add_0_r. }
  rewrite Hturn in Hloop.
  destruct (broker_world (S n) (PStr key) tid site_url w) as (_ & _ & Hsent & Hlog).
  split; [|split; [exact Hsent | split; [exact Hlog|]]].
  - rewrite Hrun. now apply try_except_ret.
  - apply broker_events_polls.
Qed.

Lemma broker_returns_ready_token_witness :
  exists w',
    get_capsolver_token 2 "https://ahrefs.com/x" (configured solver_pending_then_ready)
    = (Ret (PStr "tok-abc"), w') /\
    sent w' = 0 + 1 + 2 /\
    log w' = ([] ++ broker_events 2 (PStr "CAP-KEY") (PStr "task-1")
                                  "https://ahrefs.com/x")%list /\
    poll_count (broker_events 2 (PStr "CAP-KEY") (PStr "task-1")
                              "https://ahrefs.com/x") = 2.
Proof.
  apply (broker_returns_ready_token 2 1 "https://ahrefs.com/x"
           (configured solver_pending_then_ready) "CAP-KEY"
           created_reply ready_reply "tok-abc").
  - vm_compute. reflexivity.
  - vm_compute. reflexivity.
  - vm_compute. reflexivity.
  - intros [|i] Hi; [|lia]. exists pending_reply. split; vm_compute; reflexivity.
  - vm_compute. reflexivity.
  - split; [vm_compute; reflexivity|].
    exists {["token" := PStr "tok-abc"]}. split; vm_compute; reflexivity.
  - lia.
Defined.

Lemma try_except_returns {A} (body : M A) caught handler (w : world) (a : A) :
  fst (try_except body caught handler w) = Ret a ->
  fst (body w) = Ret a \/ exists e w', fst (handler e w') = Ret a.
Proof.
  unfold try_except. destruct (body w) as [[a' | e0 | ] w']; simpl; try discriminate.
  - intros [= <-]. now left.
  - destruct (caught e0); [|discriminate]. intros H. right. eauto.
Qed.

(** With the credential, all the rest of the broker runs inside the [try]. *)
Lemma broker_configured (fuel : nat) (site_url : string) (w : world) key :
  api_key_of w = Some key ->
  exists body,
    get_capsolver_token fuel site_url w
    = try_except body is_RequestException on_request_exception w.
Proof.
  intros Hkey. destruct (api_key_of_get w key Hkey) as [Hget Ht].
  unfold get_capsolver_token, bind at 1. rewrite Hget, Ht.
  change (negb true) with false. cbv iota.
  eexists. reflexivity.
Qed.

(** A submission reply that is neither a failure nor a JSON object makes
    the broker raise. *)
Lemma broker_submission_other (fuel : nat) (site_url : string) (w : world) key :
  api_key_of w = Some key ->
  reply_dict (next_reply w 0) = None ->
  reply_fails (next_reply w 0) = false ->
  exists e, get_capsolver_token fuel site_url w
            = (Raise e, submitted (PStr key) site_url w).
Proof.
  intros Hkey Hd Hf. destruct (api_key_of_get w key Hkey) as [Hget Ht].
  unfold get_capsolver_token, bind at 1. rewrite Hget, Ht.
  change (negb true) with false. cbv iota.
  revert Hd Hf. unfold next_reply. rewrite Nat.add_0_r.
  unfold try_except, bind, requests_post, submitted; cbv beta zeta.
  destruct (replies w (sent w)) as [kind msg | code reason body]; simpl;
    intros Hd Hf; [discriminate|].
  destruct (http_ok code) eqn:Hok; [|discriminate].
  match goal with |- context [raise_for_status ?r ?w0] =>
    rewrite (http_ok_passes r w0 Hok) end.
  destruct body as [c | [ | b | n | s | l | d']]; try discriminate;
    simpl; eexists; reflexivity.
Qed.

(** C4, as stated, fails: a poll response that bears an error indication
    but says [status: ready] is answered with its token, not with the
    failure signal, because the loop tests for [ready] first. *)
Lemma ready_with_error_returns_token :
  reply_dict (next_reply (configured solver_ready_with_error) 1)
    = Some ready_reply_with_error /\
  bears_error ready_reply_with_error = true /\
  fst (get_capsolver_token 1 "https://ahrefs.com/x" (configured solver_ready_with_error))
    = Ret (PStr "tok-abc") /\
  fst (get_capsolver_token 1 "https://ahrefs.com/x" (configured solver_ready_with_error))
    <> Ret PNone.
Proof.
  repeat split; try (vm_compute; reflexivity).
  vm_compute. discriminate.
Qed.

(** C4, amended.  The broker returns [None], never a token, when the
    submission response (a JSON object) has no task identifier, and when,
    after any number of responses that keep the loop going, a poll response
    (a JSON object) whose status is not [ready] has status [failed] or
    bears an error indication.  And whenever the broker returns anything
    but [None], the credential was there, the submission gave a task
    identifier, and the last poll response was [ready] and carried the
    value returned. *)
Theorem broker_failure_signals (fuel : nat) (site_url : string) (w : world) :
  (forall key d0,
     api_key_of w = Some key ->
     reply_dict (next_reply w 0) = Some d0 ->
     truthy (default PNone (d0 !! "taskId")) = false ->
     get_capsolver_token fuel site_url w
     = (Ret PNone, submitted (PStr key) site_url w)) /\
  (forall key d0 n d,
     api_key_of w = Some key ->
     reply_dict (next_reply w 0) = Some d0 ->
     truthy (default PNone (d0 !! "taskId")) = true ->
     (forall i, i < n ->
        exists d', reply_dict (next_reply w (S i)) = Some d' /\
                   keeps_polling d' = true) ->
     reply_dict (next_reply w (S n)) = Some d ->
     status_is d "ready" = false ->
     status_is d "failed" || bears_error d = true ->
     n < fuel ->
     fst (get_capsolver_token fuel site_url w) = Ret PNone) /\
  (forall v,
     fst (get_capsolver_token fuel site_url w) = Ret v -> v <> PNone ->
     exists key d0 n d,
       api_key_of w = Some key /\
       reply_dict (next_reply w 0) = Some d0 /\
       truthy (default PNone (d0 !! "taskId")) = true /\
       n < fuel /\
       (forall i, i < n ->
          exists d', reply_dict (next_reply w (S i)) = Some d' /\
                     keeps_polling d' = true) /\
       reply_dict (next_reply w (S n)) = Some d /\
       is_ready_with d v).
Proof.
  split; [|split].
  - intros key d0 Hkey Hd0 Htid.
    now rewrite (broker_submission_dict _ _ _ _ _ Hkey Hd0), Htid.
  - intros key d0 n d Hkey Hd0 Htid Hkeep Hd Hnr Hbad Hlt.
    destruct (broker_after n fuel site_url w key d0 Hkey Hd0 Htid Hkeep Hlt)
      as [Hrun Hloop].
    rewrite (failed_turn _ _ _ d) in Hloop; [| |exact Hnr|exact Hbad].
    + rewrite Hrun. erewrite try_except_ret; [|exact Hloop]. reflexivity.
    + rewrite next_reply_polled_n, next_reply_submitted. now rewrite Nat.add_0_r.
  - intros v Hrun Hv.
    destruct (api_key_of w) as [key|] eqn:Hkey.
    2:{ rewrite (broker_unconfigured _ _ _ Hkey) in Hrun. simpl in Hrun. congruence. }
    destruct (reply_dict (next_reply w 0)) as [d0|] eqn:Hd0.
    + rewrite (broker_submission_dict _ _ _ _ _ Hkey Hd0) in Hrun.
      destruct (truthy (default PNone (d0 !! "taskId"))) eqn:Htid.
      2:{ simpl in Hrun. congruence. }
      apply try_except_returns in Hrun as [Hrun | (e & w' & Hh)].
      2:{ rewrite on_request_exception_run in Hh. simpl in Hh. congruence. }
      destruct (poll_loop_token _ _ _ _ _ Hrun Hv) as (n & d & Hn & Hkeep & Hd & Hready).
      exists key, d0, n, d. repeat split; try assumption.
      * intros i Hi. rewrite <- next_reply_submitted
          with (api_key := PStr key) (site_url := site_url). now apply Hkeep.
      * now rewrite <- next_reply_submitted
          with (api_key := PStr key) (site_url := site_url).
      * apply Hready.
      * apply Hready.
    + destruct (reply_fails (next_reply w 0)) eqn:Hf.
      * destruct (broker_submission_fails fuel site_url w key Hkey Hf) as [msg Hm].
        rewrite Hm in Hrun. simpl in Hrun. congruence.
      * destruct (broker_submission_other fuel site_url w key Hkey Hd0 Hf) as [e He].
        rewrite He in Hrun. discriminate.
Qed.

Lemma broker_failure_signals_witness :
  get_capsolver_token 1 "https://ahrefs.com/x" (configured solver_refuses)
    = (Ret PNone,
       submitted (PStr "CAP-KEY") "https://ahrefs.com/x" (configured solver_refuses)) /\
  fst (get_capsolver_token 1 "https://ahrefs.com/x" (configured solver_fails_first_poll))
    = Ret PNone /\
  exists key d0 n d,
    api_key_of (configured solver_pending_then_ready) = Some key /\
    reply_dict (next_reply (configured solver_pending_then_ready) 0) = Some d0 /\
    truthy (default PNone (d0 !! "taskId")) = true /\
    n < 2 /\
    (forall i, i < n ->
       exists d', reply_dict (next_reply (configured solver_pending_then_ready) (S i))
                  = Some d' /\ keeps_polling d' = true) /\
    reply_dict (next_reply (configured solver_pending_then_ready) (S n)) = Some d /\
    is_ready_with d (PStr "tok-abc").
Proof.
  split; [|split].
  - apply (proj1 (broker_failure_signals 1 "https://ahrefs.com/x"
                    (configured solver_refuses)) "CAP-KEY" refused_reply);
      vm_compute; reflexivity.
  - apply (proj1 (proj2 (broker_failure_signals 1 "https://ahrefs.com/x"
                           (configured solver_fails_first_poll)))
             "CAP-KEY" created_reply 0 failed_reply);
      try (vm_compute; reflexivity); intros; lia.
  - apply (proj2 (proj2 (broker_failure_signals 2 "https://ahrefs.com/x"
                           (configured solver_pending_then_ready)))
             (PStr "tok-abc")).
    + vm_compute. reflexivity.
    + discriminate.
Defined.

(** C5. No [requests.RequestException] leaves [get_capsolver_token]: an
    exception it raises is of another class.  A request that fails, a
    response with an error status and a body that is not JSON, met at the
    submission or at any turn of the polling loop, are all turned into the
    failure signal [None], with a line on the console. *)
Theorem no_request_exception_escapes (fuel : nat) (site_url : string) (w : world) :
  (forall e,
     fst (get_capsolver_token fuel site_url w) = Raise e ->
     is_RequestException e = false) /\
  (forall key,
     api_key_of w = Some key ->
     reply_fails (next_reply w 0) = true ->
     exists msg,
       get_capsolver_token fuel site_url w
       = (Ret PNone,
          record (EvPrint ("Error communicating with CapSolver: " ++ msg))
                 (submitted (PStr key) site_url w))) /\
  (forall key d0 n,
     api_key_of w = Some key ->
     reply_dict (next_reply w 0) = Some d0 ->
     truthy (default PNone (d0 !! "taskId")) = true ->
     (forall i, i < n ->
        exists d, reply_dict (next_reply w (S i)) = Some d /\
                  keeps_polling d = true) ->
     reply_fails (next_reply w (S n)) = true ->
     n < fuel ->
     exists msg,
       get_capsolver_token fuel site_url w
       = (Ret PNone,
          record (EvPrint ("Error communicating with CapSolver: " ++ msg))
                 (polled_n (S n) (PStr key) (default PNone (d0 !! "taskId"))
                           (submitted (PStr key) site_url w)))).
Proof.
  split; [|split].
  - intros e Hrun.
    destruct (api_key_of w) as [key|] eqn:Hkey.
    + destruct (broker_configured fuel site_url w key Hkey) as [body Hb].
      rewrite Hb in Hrun.
      apply try_except_raises in Hrun as [Hc | (e' & w' & Hh)]; [exact Hc|].
      rewrite on_request_exception_run in Hh. discriminate.
    + rewrite (broker_unconfigured _ _ _ Hkey) in Hrun. discriminate.
  - intros key Hkey Hf. now apply broker_submission_fails.
  - intros key d0 n Hkey Hd0 Htid Hkeep Hf Hlt.
    destruct (broker_after n fuel site_url w key d0 Hkey Hd0 Htid Hkeep Hlt)
      as [Hrun Hloop].
    set (tid := default PNone (d0 !! "taskId")) in *.
    set (ws := submitted (PStr key) site_url w) in *.
    destruct (poll_once_fails (PStr key) tid (polled_n n (PStr key) tid ws))
      as (e & He & Hturn).
    { rewrite next_reply_polled_n. unfold ws. rewrite next_reply_submitted.
      now rewrite Nat.add_0_r. }
    rewrite Hturn in Hloop.
    exists (exn_msg e). rewrite Hrun.
    now rewrite (try_except_caught _ _ _ _ _ _ Hloop He).
Qed.

Lemma no_request_exception_escapes_witness :
  is_RequestException (no_get (PList [])) = false /\
  (exists msg,
     get_capsolver_token 3 "https://ahrefs.com/x" (configured solver_unreachable)
     = (Ret PNone,
        record (EvPrint ("Error communicating with CapSolver: " ++ msg))
               (submitted (PStr "CAP-KEY") "https://ahrefs.com/x"
                          (configured solver_unreachable)))) /\
  (exists msg,
     get_capsolver_token 3 "https://ahrefs.com/x" (configured solver_bad_gateway_on_poll)
     = (Ret PNone,
        record (EvPrint ("Error communicating with CapSolver: " ++ msg))
               (polled_n 2 (PStr "CAP-KEY") (default PNone (created_reply !! "taskId"))
                         (submitted (PStr "CAP-KEY") "https://ahrefs.com/x"
                                    (configured solver_bad_gateway_on_poll))))).
Proof.
  split; [|split].
  - apply (proj1 (no_request_exception_escapes 3 "https://ahrefs.com/x"
                    (configured solver_answers_list))).
    vm_compute. reflexivity.
  - apply (proj1 (proj2 (no_request_exception_escapes 3 "https://ahrefs.com/x"
                           (configured solver_unreachable))) "CAP-KEY");
      vm_compute; reflexivity.
  - apply (proj2 (proj2 (no_request_exception_escapes 3 "https://ahrefs.com/x"
                           (configured solver_bad_gateway_on_poll)))
             "CAP-KEY" created_reply 1); try (vm_compute; reflexivity); [|lia].
    intros [|i] Hi; [|lia]. exists pending_reply. split; vm_compute; reflexivity.
Defined.

(** ** What the broker leaves alone *)

Lemma quiet_step_refl (w : world) : quiet_step w w.
Proof.
  repeat split; [lia|]. exists []. split; [now rewrite app_nil_r | reflexivity].
Qed.

Lemma upstream_calls_app (l1 l2 : list event) :
  upstream_calls (l1 ++ l2) = (upstream_calls l1 ++ upstream_calls l2)%list.
Proof. unfold upstream_calls. apply omap_app. Qed.

Lemma quiet_step_trans (w1 w2 w3 : world) :
  quiet_step w1 w2 -> quiet_step w2 w3 -> quiet_step w1 w3.
Proof.
  intros (He1 & Hr1 & Hs1 & l1 & Hl1 & Hc1) (He2 & Hr2 & Hs2 & l2 & Hl2 & Hc2).
  repeat split; [congruence | congruence | lia |].
  exists (l1 ++ l2)%list. split.
  - now rewrite Hl2, Hl1, <- app_assoc.
  - now rewrite upstream_calls_app, Hc1, Hc2.
Qed.

Lemma quiet_step_record (e : event) (w : world) :
  upstream_calls [e] = [] -> quiet_step w (record e w).
Proof.
  intros He. unfold record. repeat split; simpl; [lia|].
  exists [e]. now split.
Qed.

Create HintDb quiet.

Lemma Quiet_ret {A} (a : A) : Quiet (ret a).
Proof. intros w. apply quiet_step_refl. Qed.

Lemma Quiet_raise {A} (e : exn) : Quiet (@raise A e).
Proof. intros w. apply quiet_step_refl. Qed.

Lemma Quiet_bind {A B} (m : M A) (k : A -> M B) :
  Quiet m -> (forall a, Quiet (k a)) -> Quiet (bind m k).
Proof.
  intros Hm Hk w. unfold bind. specialize (Hm w).
  destruct (m w) as [[a | e | ] w']; simpl in *; try exact Hm.
  apply quiet_step_trans with (1 := Hm). apply Hk.
Qed.

Lemma Quiet_try_except {A} (body : M A) caught handler :
  Quiet body -> (forall e, Quiet (handler e)) -> Quiet (try_except body caught handler).
Proof.
  intros Hb Hh w. unfold try_except. specialize (Hb w).
  destruct (body w) as [[a | e | ] w']; simpl in *; try exact Hb.
  destruct (caught e); [|exact Hb].
  apply quiet_step_trans with (1 := Hb). apply Hh.
Qed.

Lemma Quiet_if {A} (b : bool) (m1 m2 : M A) :
  Quiet m1 -> Quiet m2 -> Quiet (if b then m1 else m2).
Proof. now destruct b. Qed.

Lemma Quiet_print (line : string) : Quiet (print line).
Proof. intros w. now apply quiet_step_record. Qed.

Lemma Quiet_time_sleep (seconds : Z) : Quiet (time_sleep seconds).
Proof. intros w. now apply quiet_step_record. Qed.

Lemma Quiet_os_environ_get (name : string) : Quiet (os_environ_get name).
Proof. intros w. apply quiet_step_refl. Qed.

Lemma Quiet_requests_post url payload timeout :
  Quiet (requests_post url payload timeout).
Proof.
  intros w. unfold requests_post.
  destruct (replies w (sent w)); simpl;
    (repeat split; simpl; [lia | eexists; split; [reflexivity | reflexivity]]).
Qed.

Lemma Quiet_raise_for_status (res : response) : Quiet (raise_for_status res).
Proof.
  unfold raise_for_status.
  repeat apply Quiet_if; (apply Quiet_raise || apply Quiet_ret).
Qed.

Lemma Quiet_res_json (res : response) : Quiet (res_json res).
Proof. unfold res_json. destruct (resp_body res); [apply Quiet_raise | apply Quiet_ret]. Qed.

Lemma Quiet_py_get obj key dflt : Quiet (py_get obj key dflt).
Proof. destruct obj; simpl; (apply Quiet_raise || apply Quiet_ret). Qed.

#[export] Hint Resolve Quiet_ret Quiet_raise Quiet_bind Quiet_try_except Quiet_if
  Quiet_print Quiet_time_sleep Quiet_os_environ_get Quiet_requests_post
  Quiet_raise_for_status Quiet_res_json Quiet_py_get : quiet.

Lemma Quiet_poll_once api_key task_id : Quiet (poll_once api_key task_id).
Proof. unfold poll_once. auto 20 with quiet. Qed.

Lemma Quiet_poll_loop fuel api_key task_id : Quiet (poll_loop fuel api_key task_id).
Proof.
  induction fuel as [|fuel IH]; simpl.
  - intros w. apply quiet_step_refl.
  - apply Quiet_bind; [apply Quiet_poll_once|].
    intros [v|]; [apply Quiet_ret | exact IH].
Qed.

#[export] Hint Resolve Quiet_poll_loop : quiet.

Lemma Quiet_get_capsolver_token fuel site_url :
  Quiet (get_capsolver_token fuel site_url).
Proof. unfold get_capsolver_token. auto 20 with quiet. Qed.

(** ** Percent-encoding *)

Lemma string_app_cons (x : ascii) (a b : string) :
  String x a ++ b = String x (a ++ b).
Proof. reflexivity. Qed.

Lemma string_app_assoc (a b c : string) : (a ++ b) ++ c = a ++ (b ++ c).
Proof.
  induction a as [|x a IH]; [reflexivity|].
  now rewrite !string_app_cons, IH.
Qed.

Lemma list_ascii_of_string_app (a b : string) :
  list_ascii_of_string (a ++ b)
  = (list_ascii_of_string a ++ list_ascii_of_string b)%list.
Proof.
  induction a as [|x a IH]; [reflexivity|].
  rewrite string_app_cons. simpl. now rewrite IH.
Qed.

Lemma quote_cons (c : ascii) (s : string) :
  quote (String c s)
  = (if quote_safe c then String c "" else percent_escape c) ++ quote s.
Proof. reflexivity. Qed.

Lemma quote_app (a b : string) : quote (a ++ b) = quote a ++ quote b.
Proof.
  induction a as [|x a IH]; [reflexivity|].
  now rewrite string_app_cons, !quote_cons, IH, string_app_assoc.
Qed.

Lemma percent_escape_chars (c : ascii) :
  forallb quoted_char (list_ascii_of_string (percent_escape c)) = true.
Proof. destruct c as [[] [] [] [] [] [] [] []]; vm_compute; reflexivity. Qed.

Lemma quote_chars (s : string) :
  forallb quoted_char (list_ascii_of_string (quote s)) = true.
Proof.
  induction s as [|c s IH]; [reflexivity|].
  rewrite quote_cons, list_ascii_of_string_app, forallb_app, IH, andb_true_r.
  destruct (quote_safe c) eqn:Hs.
  - simpl. rewrite andb_true_r. unfold quoted_char. unfold quote_safe in Hs.
    now rewrite Hs.
  - apply percent_escape_chars.
Qed.

(** Every reserved character but the slash, and the space, is outside the
    safe set. *)
Lemma reserved_not_safe (c : ascii) :
  url_reserved c = true \/ c = " "%char -> c <> "/"%char -> quote_safe c = false.
Proof.
  intros [Hr | ->] Hslash; [|reflexivity].
  unfold url_reserved in Hr. simpl in Hr.
  repeat (apply orb_prop in Hr as [Hr | Hr];
          [apply Ascii.eqb_eq in Hr; subst; try reflexivity; now contradict Hslash|]).
  discriminate.
Qed.

(** The safe bytes are exactly the letters, the digits and [_ . - ~ /]. *)
Lemma quote_safe_bytes (c : ascii) :
  quote_safe c = existsb (Ascii.eqb c) (list_ascii_of_string SAFE_BYTES).
Proof. destruct c as [[] [] [] [] [] [] [] []]; vm_compute; reflexivity. Qed.

Lemma percent_escape_is_escape (c : ascii) : is_escape_of c (percent_escape c).
Proof.
  exists (hex_digit (N_of_ascii c / 16)), (hex_digit (N_of_ascii c mod 16)),
         (N_of_ascii c / 16)%N, (N_of_ascii c mod 16)%N.
  split; [reflexivity|].
  split; [destruct c as [[] [] [] [] [] [] [] []]; reflexivity|].
  split; [destruct c as [[] [] [] [] [] [] [] []]; reflexivity|].
  split; [destruct c as [[] [] [] [] [] [] [] []]; reflexivity|].
  split; [destruct c as [[] [] [] [] [] [] [] []]; reflexivity|].
  destruct c as [[] [] [] [] [] [] [] []]; reflexivity.
Qed.

(** What [quote] does to each byte of a string. *)
Lemma quote_each_byte (pre post : string) (c : ascii) :
  quote (pre ++ String c post)
  = quote pre ++ (if quote_safe c then String c "" else percent_escape c)
    ++ quote post.
Proof. now rewrite quote_app, quote_cons. Qed.

(** ** The tools *)

Lemma get_token_for_url_run (fuel : nat) (site_url : string) (w : world) :
  get_token_for_url fuel site_url w =
    match get_capsolver_token fuel site_url w with
    | (Ret token, w1) =>
        if truthy token then (Ret token, w1)
        else (Raise (Exception ("Failed to get verification token for URL: "
                                ++ site_url)), w1)
    | other => other
    end.
Proof.
  unfold get_token_for_url, bind.
  destruct (get_capsolver_token fuel site_url w) as [[token | e | ] w1]; try reflexivity.
  now destruct (truthy token).
Qed.

Section ToolLayer.

Variable fuel : nat.
Variable get_signature_and_overview_impl :
  pyval -> string -> result (pyval * pyval * pyval).
Variable get_backlinks_impl : pyval -> pyval -> string -> result pyval.
Variable get_keyword_ideas_impl : pyval -> string -> string -> string -> result pyval.
Variable check_traffic_impl : pyval -> string -> string -> string -> result pyval.
Variable get_keyword_difficulty_impl : pyval -> string -> string -> result pyval.

Local Abbreviation run_tool :=
  (invoke fuel get_signature_and_overview_impl get_backlinks_impl
          get_keyword_ideas_impl check_traffic_impl get_keyword_difficulty_impl).
Local Abbreviation then_tool :=
  (after_token get_signature_and_overview_impl get_backlinks_impl
               get_keyword_ideas_impl check_traffic_impl get_keyword_difficulty_impl).

(** Every tool first asks the broker for a token for its URL, and only
    then goes on. *)
Lemma run_tool_bind (c : tool_call) :
  run_tool c
  = (let* token := get_token_for_url fuel (tool_url c) in then_tool c token).
Proof. destruct c; reflexivity. Qed.

(** Without a token the tool stops where the broker stopped. *)
Lemma run_tool_no_token (c : tool_call) (w : world) :
  (forall token, fst (get_capsolver_token fuel (tool_url c) w) = Ret token ->
                 truthy token = false) ->
  snd (run_tool c w) = snd (get_capsolver_token fuel (tool_url c) w) /\
  (forall token, fst (get_capsolver_token fuel (tool_url c) w) = Ret token ->
     fst (run_tool c w)
     = Raise (Exception ("Failed to get verification token for URL: "
                         ++ tool_url c))).
Proof.
  intros Hfalsy. rewrite run_tool_bind. unfold bind.
  rewrite get_token_for_url_run.
  destruct (get_capsolver_token fuel (tool_url c) w) as [[token | e | ] w1];
    simpl in *.
  - rewrite (Hfalsy token eq_refl). split; [reflexivity|]. intros; reflexivity.
  - split; [reflexivity|]. intros; discriminate.
  - split; [reflexivity|]. intros; discriminate.
Qed.

(** With a token, the first thing a tool does is a call into a sibling
    module that is handed that token. *)
Lemma after_token_calls (c : tool_call) (token : pyval) (w : world) :
  exists fn args rest,
    upstream_calls (log (snd (then_tool c token w)))
    = (upstream_calls (log w) ++ (fn, token :: args) :: rest)%list.
Proof.
  destruct c as [domain | keyword country se | d country mode | keyword country];
    simpl; unfold bind, upstream, record; simpl.
  - destruct (get_signature_and_overview_impl token domain)
      as [[[signature valid_until] overview] | e | ]; simpl.
    + destruct (negb (truthy signature) || negb (truthy valid_until)); simpl.
      * rewrite upstream_calls_app. simpl. eauto.
      * destruct (get_backlinks_impl signature valid_until domain); simpl;
          rewrite !upstream_calls_app; simpl; rewrite <- app_assoc; simpl; eauto.
    + rewrite upstream_calls_app. simpl. eauto.
    + rewrite upstream_calls_app. simpl. eauto.
  - rewrite upstream_calls_app. simpl. eauto.
  - rewrite upstream_calls_app. simpl. eauto.
  - rewrite upstream_calls_app. simpl. eauto.
Qed.

(** C1. Each of the four tools asks the broker for a token for its target
    URL before anything else.  The broker itself makes no upstream call.
    If the broker returns no token (a falsy value), the tool raises an
    exception whose message names that URL and does nothing more, so no
    upstream function runs.  And if any upstream function was called
    during the invocation, the broker had returned a token and the first
    such call was handed it. *)
Theorem token_before_upstream (c : tool_call) (w : world) :
  let broker := get_capsolver_token fuel (tool_url c) w in
  let tool := run_tool c w in
  upstream_calls (log (snd broker)) = upstream_calls (log w) /\
  (forall token,
     fst broker = Ret token -> truthy token = false ->
     tool = (Raise (Exception ("Failed to get verification token for URL: "
                               ++ tool_url c)), snd broker)) /\
  (upstream_calls (log (snd tool)) <> upstream_calls (log w) ->
   exists token fn args rest,
     fst broker = Ret token /\ truthy token = true /\
     upstream_calls (log (snd tool))
     = (upstream_calls (log w) ++ (fn, token :: args) :: rest)%list).
Proof.
  simpl.
  assert (Hq : upstream_calls (log (snd (get_capsolver_token fuel (tool_url c) w)))
               = upstream_calls (log w)).
  { destruct (Quiet_get_capsolver_token fuel (tool_url c) w)
      as (_ & _ & _ & l & Hl & Hc).
    now rewrite Hl, upstream_calls_app, Hc, app_nil_r. }
  split; [exact Hq|]. split.
  - intros token Hrun Hfalsy.
    destruct (run_tool_no_token c w) as [Hw Hr].
    { intros t Ht. congruence. }
    rewrite (surjective_pairing (run_tool c w)). now rewrite Hw, (Hr token Hrun).
  - intros Hcalls.
    destruct (get_capsolver_token fuel (tool_url c) w) as [[token | e | ] w1] eqn:Hb;
      simpl in *.
    + destruct (truthy token) eqn:Ht.
      * revert Hcalls. rewrite run_tool_bind. unfold bind.
        rewrite get_token_for_url_run, Hb, Ht. intros _.
        destruct (after_token_calls c token w1) as (fn & args & rest & Hlog).
        exists token, fn, args, rest. now rewrite Hlog, Hq.
      * exfalso. apply Hcalls.
        destruct (run_tool_no_token c w) as [Hw _].
        { rewrite Hb. simpl. intros t [= <-]. exact Ht. }
        now rewrite Hw, Hb.
    + exfalso. apply Hcalls.
      destruct (run_tool_no_token c w) as [Hw _].
      { rewrite Hb. simpl. intros; discriminate. }
      now rewrite Hw, Hb.
    + exfalso. apply Hcalls.
      destruct (run_tool_no_token c w) as [Hw _].
      { rewrite Hb. simpl. intros; discriminate. }
      now rewrite Hw, Hb.
Qed.

(** C2. With [CAPSOLVER_API_KEY] absent from the environment, each of the
    four tools fails at once: the broker writes the configuration error
    to the console and returns [None] before any HTTP request, and the
    tool raises.  The console line is all that happened: no request was
    sent and no upstream function was called. *)
Theorem unconfigured_tool_fails (c : tool_call) (w : world) :
  environ w !! "CAPSOLVER_API_KEY" = None ->
  run_tool c w
  = (Raise (Exception ("Failed to get verification token for URL: " ++ tool_url c)),
     record (EvPrint "Error: CAPSOLVER_API_KEY environment variable not set.") w) /\
  posts (log (snd (run_tool c w))) = posts (log w) /\
  sent (snd (run_tool c w)) = sent w /\
  upstream_calls (log (snd (run_tool c w))) = upstream_calls (log w).
Proof.
  intros Henv.
  assert (Hkey : api_key_of w = None) by (unfold api_key_of; now rewrite Henv).
  assert (Hrun : run_tool c w
                 = (Raise (Exception ("Failed to get verification token for URL: "
                                      ++ tool_url c)),
                    record (EvPrint
                      "Error: CAPSOLVER_API_KEY environment variable not set.") w)).
  { rewrite run_tool_bind. unfold bind.
    rewrite get_token_for_url_run, (broker_unconfigured _ _ _ Hkey). reflexivity. }
  rewrite Hrun. split; [reflexivity|]. simpl.
  unfold posts, upstream_calls. rewrite !omap_app. simpl.
  now rewrite !app_nil_r.
Qed.

(** C7. When the token is obtained, [get_signature_and_overview] returns
    a signature and a validity that are both truthy together with an
    overview, and [get_backlinks] returns a list, [get_backlinks_list]
    returns the dictionary with exactly the keys [overview] and
    [backlinks], bound to those two values unchanged. *)
Theorem backlinks_list_echoes
    (domain : string) (w w1 : world)
    (token signature valid_until overview_data backlinks : pyval) :
  get_token_for_url fuel
    ("https://ahrefs.com/backlink-checker/?input=" ++ domain ++ "&mode=subdomains") w
    = (Ret token, w1) ->
  get_signature_and_overview_impl token domain
    = Ret (signature, valid_until, overview_data) ->
  truthy signature = true ->
  truthy valid_until = true ->
  get_backlinks_impl signature valid_until domain = Ret backlinks ->
  exists result,
    fst (run_tool (Call_get_backlinks_list domain) w) = Ret (PDict result) /\
    result = <["overview" := overview_data]> {["backlinks" := backlinks]} /\
    result !! "overview" = Some overview_data /\
    result !! "backlinks" = Some backlinks /\
    dom result = {["overview"; "backlinks"]} /\
    upstream_calls (log (snd (run_tool (Call_get_backlinks_list domain) w)))
    = (upstream_calls (log w1)
       ++ [(Fn_get_signature_and_overview, [token; PStr domain]);
           (Fn_get_backlinks, [signature; valid_until; PStr domain])])%list.
Proof.
  intros Htok Hsig Hs Hv Hbl.
  exists (<["overview" := overview_data]> {["backlinks" := backlinks]}).
  simpl. unfold get_backlinks_list, bind.
  rewrite Htok. unfold get_signature_and_overview, get_backlinks, upstream.
  rewrite Hsig, Hs, Hv. simpl. rewrite Hbl. simpl.
  split_and!; try reflexivity.
  rewrite !upstream_calls_app. simpl. now rewrite <- app_assoc.
Qed.

(** C8. When the token is obtained and [get_signature_and_overview]
    returns no signature (or no validity), [get_backlinks_list] raises an
    exception whose message names the domain; [get_backlinks] is not
    called and no dictionary is returned. *)
Theorem backlinks_list_no_signature
    (domain : string) (w w1 : world)
    (token signature valid_until overview_data : pyval) :
  get_token_for_url fuel
    ("https://ahrefs.com/backlink-checker/?input=" ++ domain ++ "&mode=subdomains") w
    = (Ret token, w1) ->
  get_signature_and_overview_impl token domain
    = Ret (signature, valid_until, overview_data) ->
  truthy signature && truthy valid_until = false ->
  run_tool (Call_get_backlinks_list domain) w
  = (Raise (Exception ("Failed to get signature for domain: " ++ domain)),
     record (EvCall Fn_get_signature_and_overview [token; PStr domain]) w1).
Proof.
  intros Htok Hsig Hnone.
  simpl. unfold get_backlinks_list, bind.
  rewrite Htok. unfold get_signature_and_overview, upstream.
  rewrite Hsig.
  replace (negb (truthy signature) || negb (truthy valid_until)) with true.
  - reflexivity.
  - destruct (truthy signature), (truthy valid_until); simpl in *; congruence.
Qed.

(** With the credential, the first thing a tool does is submit the task
    for its URL to the solver. *)
Lemma broker_first_event (site_url : string) (w : world) key :
  api_key_of w = Some key ->
  exists rest,
    log (snd (get_capsolver_token fuel site_url w))
    = (log w ++ EvPost CAPSOLVER_CREATE_TASK
                       (create_task_payload (PStr key) site_url) 20 :: rest)%list.
Proof.
  intros Hkey.
  destruct (reply_dict (next_reply w 0)) as [d0|] eqn:Hd0.
  - rewrite (broker_submission_dict _ _ _ _ _ Hkey Hd0).
    destruct (truthy (default PNone (d0 !! "taskId"))).
    + match goal with |- context [try_except ?b ?c ?h ?w0] =>
        destruct (Quiet_try_except b c h) with (w := w0)
          as (_ & _ & _ & l & Hl & _)
      end; [auto with quiet | intros e; unfold on_request_exception; auto with quiet |].
      exists l. rewrite Hl. simpl. now rewrite <- app_assoc.
    + exists []. reflexivity.
  - destruct (reply_fails (next_reply w 0)) eqn:Hf.
    + destruct (broker_submission_fails fuel site_url w key Hkey Hf) as [msg ->].
      eexists. simpl. now rewrite <- app_assoc.
    + destruct (broker_submission_other fuel site_url w key Hkey Hd0 Hf) as [e ->].
      exists []. reflexivity.
Qed.

Lemma after_token_log (c : tool_call) (token : pyval) (w : world) :
  exists l, log (snd (then_tool c token w)) = (log w ++ l)%list.
Proof.
  destruct c as [domain | keyword country se | d country mode | keyword country];
    simpl; unfold bind, upstream, record; simpl; eauto.
  destruct (get_signature_and_overview_impl token domain)
    as [[[signature valid_until] overview] | e | ]; simpl; eauto.
  destruct (negb (truthy signature) || negb (truthy valid_until)); simpl; eauto.
  destruct (get_backlinks_impl signature valid_until domain); simpl;
    rewrite <- app_assoc; eauto.
Qed.

Lemma run_tool_first_event (c : tool_call) (w : world) key :
  api_key_of w = Some key ->
  exists rest,
    log (snd (run_tool c w))
    = (log w ++ EvPost CAPSOLVER_CREATE_TASK
                       (create_task_payload (PStr key) (tool_url c)) 20 :: rest)%list.
Proof.
  intros Hkey.
  destruct (broker_first_event (tool_url c) w key Hkey) as [rest Hlog].
  rewrite run_tool_bind. unfold bind. rewrite get_token_for_url_run.
  destruct (get_capsolver_token fuel (tool_url c) w) as [[token | e | ] w1];
    simpl in *; eauto.
  destruct (truthy token); simpl; eauto.
  destruct (after_token_log c token w1) as [l Hl].
  exists (rest ++ l)%list. rewrite Hl, Hlog, <- app_assoc. reflexivity.
Qed.

(** C6, amended.  [keyword_generator] and [keyword_difficulty] put the
    keyword into the URL they hand to the broker through
    [urllib.parse.quote]: the first thing either does is submit that URL
    to the solver.  In the encoded keyword every byte other than an ASCII
    letter, a digit, [_], [.], [-], [~] and [/] is replaced by its [%XX]
    escape, and each of those safe bytes stays as it is; this covers the
    space and every reserved character except the slash, which stays as it
    is.  The encoded keyword consists of safe characters and of escapes
    only. *)
Theorem keyword_percent_encoded
    (keyword : string) (country search_engine : option string)
    (w : world) (key : string) :
  api_key_of w = Some key ->
  (exists rest,
     log (snd (run_tool (Call_keyword_generator keyword country search_engine) w))
     = (log w ++ EvPost CAPSOLVER_CREATE_TASK
          (create_task_payload (PStr key)
             ("https://ahrefs.com/keyword-generator/?country="
              ++ default "us" country ++ "&input=" ++ quote keyword)) 20
        :: rest)%list) /\
  (exists rest,
     log (snd (run_tool (Call_keyword_difficulty keyword country) w))
     = (log w ++ EvPost CAPSOLVER_CREATE_TASK
          (create_task_payload (PStr key)
             ("https://ahrefs.com/keyword-difficulty/?country="
              ++ default "us" country ++ "&input=" ++ quote keyword)) 20
        :: rest)%list) /\
  (forall pre c post,
     keyword = pre ++ String c post ->
     quote keyword
     = quote pre ++ (if quote_safe c then String c "" else percent_escape c)
       ++ quote post) /\
  (forall c,
     quote_safe c = existsb (Ascii.eqb c) (list_ascii_of_string SAFE_BYTES) /\
     is_escape_of c (percent_escape c)) /\
  (forall c,
     url_reserved c = true \/ c = " "%char -> c <> "/"%char -> quote_safe c = false) /\
  quote_safe "/" = true /\
  forallb quoted_char (list_ascii_of_string (quote keyword)) = true.
Proof.
  intros Hkey. split_and!.
  - apply (run_tool_first_event
             (Call_keyword_generator keyword country search_engine) w key Hkey).
  - apply (run_tool_first_event (Call_keyword_difficulty keyword country) w key Hkey).
  - intros pre c post ->. apply quote_each_byte.
  - intros c. split; [apply quote_safe_bytes | apply percent_escape_is_escape].
  - intros c. apply reserved_not_safe.
  - reflexivity.
  - apply quote_chars.
Qed.

(** C10. [get_backlinks_list] and [get_traffic] put their [domain] and
    [domain_or_url] argument into the URL they hand to the broker as it
    is.  For the input [a b&c.com] the space and the ampersand reach the
    broker raw, where [quote] would have escaped them. *)
Theorem domain_not_percent_encoded
    (domain mode : string) (w : world) (key : string) :
  api_key_of w = Some key ->
  (exists rest,
     log (snd (run_tool (Call_get_backlinks_list domain) w))
     = (log w ++ EvPost CAPSOLVER_CREATE_TASK
          (create_task_payload (PStr key)
             ("https://ahrefs.com/backlink-checker/?input=" ++ domain
              ++ "&mode=subdomains")) 20 :: rest)%list) /\
  (exists rest,
     log (snd (run_tool (Call_get_traffic domain None (Some mode)) w))
     = (log w ++ EvPost CAPSOLVER_CREATE_TASK
          (create_task_payload (PStr key)
             ("https://ahrefs.com/traffic-checker/?input=" ++ domain
              ++ "&mode=" ++ mode)) 20 :: rest)%list) /\
  tool_url (Call_get_backlinks_list "a b&c.com")
  = "https://ahrefs.com/backlink-checker/?input=a b&c.com&mode=subdomains" /\
  tool_url (Call_get_traffic "a b&c.com" None None)
  = "https://ahrefs.com/traffic-checker/?input=a b&c.com&mode=subdomains" /\
  quote "a b&c.com" = "a%20b%26c.com".
Proof.
  intros Hkey. split_and!; try reflexivity.
  - apply (run_tool_first_event (Call_get_backlinks_list domain) w key Hkey).
  - apply (run_tool_first_event (Call_get_traffic domain None (Some mode)) w key Hkey).
Qed.

End ToolLayer.

(** ** The tools on concrete doubles *)

Lemma token_before_upstream_witness :
  serve 3 (Call_keyword_difficulty "best seo" None) (configured solver_fails_first_poll)
  = (Raise (Exception ("Failed to get verification token for URL: "
       ++ "https://ahrefs.com/keyword-difficulty/?country=us&input=best%20seo")),
     snd (get_capsolver_token 3
            "https://ahrefs.com/keyword-difficulty/?country=us&input=best%20seo"
            (configured solver_fails_first_poll))) /\
  exists token fn args rest,
    fst (get_capsolver_token 3
           "https://ahrefs.com/backlink-checker/?input=example.com&mode=subdomains"
           (configured solver_pending_then_ready)) = Ret token /\
    truthy token = true /\
    upstream_calls (log (snd (serve 3 (Call_get_backlinks_list "example.com")
                                    (configured solver_pending_then_ready))))
    = ([] ++ (fn, token :: args) :: rest)%list.
Proof.
  split.
  - apply (proj1 (proj2 (token_before_upstream 3 signature_double backlinks_double
                           ideas_double traffic_double difficulty_double
                           (Call_keyword_difficulty "best seo" None)
                           (configured solver_fails_first_poll))) PNone);
      vm_compute; reflexivity.
  - apply (proj2 (proj2 (token_before_upstream 3 signature_double backlinks_double
                           ideas_double traffic_double difficulty_double
                           (Call_get_backlinks_list "example.com")
                           (configured solver_pending_then_ready)))).
    vm_compute. discriminate.
Defined.

Lemma unconfigured_tool_fails_witness :
  serve 3 (Call_get_traffic "example.com" None None) (unconfigured solver_pending_then_ready)
  = (Raise (Exception ("Failed to get verification token for URL: "
       ++ "https://ahrefs.com/traffic-checker/?input=example.com&mode=subdomains")),
     record (EvPrint "Error: CAPSOLVER_API_KEY environment variable not set.")
            (unconfigured solver_pending_then_ready)) /\
  posts (log (snd (serve 3 (Call_get_traffic "example.com" None None)
                         (unconfigured solver_pending_then_ready)))) = posts [] /\
  sent (snd (serve 3 (Call_get_traffic "example.com" None None)
                   (unconfigured solver_pending_then_ready))) = 0 /\
  upstream_calls (log (snd (serve 3 (Call_get_traffic "example.com" None None)
                                  (unconfigured solver_pending_then_ready))))
  = upstream_calls [].
Proof.
  apply (unconfigured_tool_fails 3 signature_double backlinks_double ideas_double
           traffic_double difficulty_double
           (Call_get_traffic "example.com" None None)
           (unconfigured solver_pending_then_ready)).
  reflexivity.
Defined.

Lemma backlinks_list_echoes_witness :
  exists result,
    fst (serve 3 (Call_get_backlinks_list "example.com")
               (configured solver_pending_then_ready)) = Ret (PDict result) /\
    result = <["overview" := PDict {["domain_rating" := PInt 57]}]>
             {["backlinks" := PList [PDict {["url" := PStr "https://blog.example/post"]}]]} /\
    result !! "overview" = Some (PDict {["domain_rating" := PInt 57]}) /\
    result !! "backlinks"
      = Some (PList [PDict {["url" := PStr "https://blog.example/post"]}]) /\
    dom result = {["overview"; "backlinks"]} /\
    upstream_calls (log (snd (serve 3 (Call_get_backlinks_list "example.com")
                                    (configured solver_pending_then_ready))))
    = (upstream_calls
         (log (snd (get_token_for_url 3
            "https://ahrefs.com/backlink-checker/?input=example.com&mode=subdomains"
            (configured solver_pending_then_ready))))
       ++ [(Fn_get_signature_and_overview, [PStr "tok-abc"; PStr "example.com"]);
           (Fn_get_backlinks, [PStr "sig-1"; PInt 1893456000; PStr "example.com"])])%list.
Proof.
  apply (backlinks_list_echoes 3 signature_double backlinks_double ideas_double
           traffic_double difficulty_double "example.com"
           (configured solver_pending_then_ready)
           (snd (get_token_for_url 3
              "https://ahrefs.com/backlink-checker/?input=example.com&mode=subdomains"
              (configured solver_pending_then_ready)))
           (PStr "tok-abc") (PStr "sig-1") (PInt 1893456000)
           (PDict {["domain_rating" := PInt 57]})
           (PList [PDict {["url" := PStr "https://blog.example/post"]}]));
    vm_compute; reflexivity.
Defined.

Lemma backlinks_list_no_signature_witness :
  invoke 3 no_signature_double backlinks_double ideas_double traffic_double
         difficulty_double (Call_get_backlinks_list "example.com")
         (configured solver_pending_then_ready)
  = (Raise (Exception ("Failed to get signature for domain: " ++ "example.com")),
     record (EvCall Fn_get_signature_and_overview [PStr "tok-abc"; PStr "example.com"])
            (snd (get_token_for_url 3
               "https://ahrefs.com/backlink-checker/?input=example.com&mode=subdomains"
               (configured solver_pending_then_ready)))).
Proof.
  apply (backlinks_list_no_signature 3 no_signature_double backlinks_double
           ideas_double traffic_double difficulty_double "example.com"
           (configured solver_pending_then_ready)
           (snd (get_token_for_url 3
              "https://ahrefs.com/backlink-checker/?input=example.com&mode=subdomains"
              (configured solver_pending_then_ready)))
           (PStr "tok-abc") PNone PNone PNone);
    vm_compute; reflexivity.
Defined.

(** C6, as stated, fails for the slash: it is a reserved character, and a
    keyword that contains it reaches the broker with the slash as it is. *)
Lemma slash_in_keyword_not_encoded :
  url_reserved "/" = true /\
  quote "seo/tools" = "seo/tools" /\
  head (posts (log (snd (serve 3 (Call_keyword_generator "seo/tools" None None)
                              (configured solver_pending_then_ready)))))
  = Some (CAPSOLVER_CREATE_TASK,
          create_task_payload (PStr "CAP-KEY")
            "https://ahrefs.com/keyword-generator/?country=us&input=seo/tools") /\
  head (posts (log (snd (serve 3 (Call_keyword_difficulty "seo/tools" None)
                              (configured solver_pending_then_ready)))))
  = Some (CAPSOLVER_CREATE_TASK,
          create_task_payload (PStr "CAP-KEY")
            "https://ahrefs.com/keyword-difficulty/?country=us&input=seo/tools").
Proof. split_and!; vm_compute; reflexivity. Qed.

Lemma keyword_percent_encoded_witness :
  (exists rest,
     log (snd (serve 3 (Call_keyword_generator "50% <off> é&more" None None)
                     (configured solver_pending_then_ready)))
     = ([] ++ EvPost CAPSOLVER_CREATE_TASK
          (create_task_payload (PStr "CAP-KEY")
             ("https://ahrefs.com/keyword-generator/?country="
              ++ default "us" None ++ "&input=" ++ quote "50% <off> é&more")) 20
        :: rest)%list) /\
  quote "50% <off> é&more"
  = quote "50" ++ percent_escape "%" ++ quote " <off> é&more" /\
  quote "50% <off> é&more" = "50%25%20%3Coff%3E%20%C3%A9%26more".
Proof.
  destruct (keyword_percent_encoded 3 signature_double backlinks_double ideas_double
              traffic_double difficulty_double "50% <off> é&more" None None
              (configured solver_pending_then_ready) "CAP-KEY")
    as (Hgen & _ & Hesc & _).
  - vm_compute. reflexivity.
  - split; [exact Hgen|]. split.
    + apply (Hesc "50" "%"%char " <off> é&more"). reflexivity.
    + reflexivity.
Defined.

Lemma domain_not_percent_encoded_witness :
  (exists rest,
     log (snd (serve 3 (Call_get_backlinks_list "a b&c.com")
                     (configured solver_pending_then_ready)))
     = ([] ++ EvPost CAPSOLVER_CREATE_TASK
          (create_task_payload (PStr "CAP-KEY")
             ("https://ahrefs.com/backlink-checker/?input=" ++ "a b&c.com"
              ++ "&mode=subdomains")) 20 :: rest)%list) /\
  (exists rest,
     log (snd (serve 3 (Call_get_traffic "a b&c.com" None (Some "exact"))
                     (configured solver_pending_then_ready)))
     = ([] ++ EvPost CAPSOLVER_CREATE_TASK
          (create_task_payload (PStr "CAP-KEY")
             ("https://ahrefs.com/traffic-checker/?input=" ++ "a b&c.com"
              ++ "&mode=" ++ "exact")) 20 :: rest)%list).
Proof.
  destruct (domain_not_percent_encoded 3 signature_double backlinks_double
              ideas_double traffic_double difficulty_double "a b&c.com" "exact"
              (configured solver_pending_then_ready) "CAP-KEY")
    as (Hb & Ht & _).
  - vm_compute. reflexivity.
  - split; [exact Hb | exact Ht].
Defined.

(** * More properties of the code *)

(** ** The shape of a broker run *)

(** However the loop ends, it has slept and asked the same number of
    times, at most [fuel]. *)
Lemma poll_loop_world (fuel : nat) (api_key task_id : pyval) (w : world) :
  exists m, m <= fuel /\
    snd (poll_loop fuel api_key task_id w) = polled_n m api_key task_id w.
Proof.
  revert w. induction fuel as [|fuel IH]; intros w.
  - exists 0. split; [lia | reflexivity].
  - rewrite poll_loop_S.
    destruct (fst (poll_once api_key task_id w)) as [[v|] | e | ];
      try (exists 1; split; [lia | reflexivity]).
    destruct (IH (polled api_key task_id w)) as (m & Hm & Hw).
    exists (S m). split; [lia|]. now rewrite polled_n_S.
Qed.

Lemma try_except_world (body : M pyval) (w : world) :
  let w' := snd (try_except body is_RequestException on_request_exception w) in
  w' = snd (body w) \/
  exists msg,
    w' = record (EvPrint ("Error communicating with CapSolver: " ++ msg)) (snd (body w)).
Proof.
  simpl. unfold try_except.
  destruct (body w) as [[v | e | ] w1]; simpl; auto.
  destruct (is_RequestException e); simpl; eauto.
Qed.

(** With the credential set and whatever the solver answers, a run of
    [get_capsolver_token] submits exactly one task, then polls [m] times,
    at most [fuel], each poll right after a sleep of 2 and carrying the
    credential and the task identifier of the submission response, and
    ends with at most one console line.  It does nothing else. *)
Theorem broker_run_shape (fuel : nat) (site_url : string) (w : world) (key : string) :
  api_key_of w = Some key ->
  exists m tail,
    m <= fuel /\
    log (snd (get_capsolver_token fuel site_url w))
    = (log w ++ broker_events m (PStr key) (submitted_task_id w) site_url ++ tail)%list /\
    (tail = [] \/
     exists msg, tail = [EvPrint ("Error communicating with CapSolver: " ++ msg)]) /\
    sent (snd (get_capsolver_token fuel site_url w)) = sent w + 1 + m /\
    poll_count (broker_events m (PStr key) (submitted_task_id w) site_url) = m.
Proof.
  intros Hkey.
  assert (Hdone : forall m tid,
            log (polled_n m (PStr key) tid (submitted (PStr key) site_url w))
            = (log w ++ broker_events m (PStr key) tid site_url ++ [])%list /\
            sent (polled_n m (PStr key) tid (submitted (PStr key) site_url w))
            = sent w + 1 + m).
  { intros m tid.
    destruct (broker_world m (PStr key) tid site_url w) as (_ & _ & Hs & Hl).
    split; [now rewrite app_nil_r | exact Hs]. }
  assert (Hprint : forall m tid msg,
            log (record (EvPrint ("Error communicating with CapSolver: " ++ msg))
                   (polled_n m (PStr key) tid (submitted (PStr key) site_url w)))
            = (log w ++ broker_events m (PStr key) tid site_url
               ++ [EvPrint ("Error communicating with CapSolver: " ++ msg)])%list /\
            sent (record (EvPrint ("Error communicating with CapSolver: " ++ msg))
                   (polled_n m (PStr key) tid (submitted (PStr key) site_url w)))
            = sent w + 1 + m).
  { intros m tid msg.
    destruct (broker_world m (PStr key) tid site_url w) as (_ & _ & Hs & Hl).
    unfold record. simpl. split; [now rewrite Hl, <- app_assoc | exact Hs]. }
  unfold submitted_task_id.
  destruct (reply_dict (next_reply w 0)) as [d0|] eqn:Hd0.
  - rewrite (broker_submission_dict _ _ _ _ _ Hkey Hd0).
    destruct (truthy (default PNone (d0 !! "taskId"))).
    + set (tid := default PNone (d0 !! "taskId")).
      destruct (poll_loop_world fuel (PStr key) tid (submitted (PStr key) site_url w))
        as (m & Hm & Hw).
      destruct (try_except_world (poll_loop fuel (PStr key) tid)
                  (submitted (PStr key) site_url w)) as [Hq | [msg Hq]];
        simpl in Hq; rewrite Hq, Hw.
      * exists m, []. destruct (Hdone m tid) as [Hl Hs].
        split_and!; auto using broker_events_polls.
      * exists m, [EvPrint ("Error communicating with CapSolver: " ++ msg)].
        destruct (Hprint m tid msg) as [Hl Hs].
        split_and!; eauto using broker_events_polls.
    + exists 0, []. destruct (Hdone 0 (default PNone (d0 !! "taskId"))) as [Hl Hs].
      split_and!; auto; lia.
  - destruct (reply_fails (next_reply w 0)) eqn:Hf.
    + destruct (broker_submission_fails fuel site_url w key Hkey Hf) as [msg ->].
      exists 0, [EvPrint ("Error communicating with CapSolver: " ++ msg)].
      destruct (Hprint 0 PNone msg) as [Hl Hs].
      split_and!; eauto; lia.
    + destruct (broker_submission_other fuel site_url w key Hkey Hd0 Hf) as [e ->].
      exists 0, []. destruct (Hdone 0 PNone) as [Hl Hs].
      split_and!; auto; lia.
Qed.

Lemma broker_run_shape_witness :
  exists m tail,
    m <= 3 /\
    log (snd (get_capsolver_token 3 "https://ahrefs.com/x"
                (configured solver_bad_gateway_on_poll)))
    = ([] ++ broker_events m (PStr "CAP-KEY")
               (submitted_task_id (configured solver_bad_gateway_on_poll))
               "https://ahrefs.com/x" ++ tail)%list /\
    (tail = [] \/
     exists msg, tail = [EvPrint ("Error communicating with CapSolver: " ++ msg)]) /\
    sent (snd (get_capsolver_token 3 "https://ahrefs.com/x"
                 (configured solver_bad_gateway_on_poll))) = 0 + 1 + m /\
    poll_count (broker_events m (PStr "CAP-KEY")
                  (submitted_task_id (configured solver_bad_gateway_on_poll))
                  "https://ahrefs.com/x") = m.
Proof.
  apply (broker_run_shape 3 "https://ahrefs.com/x"
           (configured solver_bad_gateway_on_poll) "CAP-KEY").
  vm_compute. reflexivity.
Defined.

(** ** A solver that never finishes *)

(** As long as the solver answers neither [ready] nor [failed] nor with an
    error indication, the broker neither returns nor raises: whatever the
    number of turns allowed, it is still polling when they are used up, and
    has by then made that many polls. *)
Theorem broker_never_gives_up
    (fuel : nat) (site_url : string) (w : world) (key : string)
    (d0 : gmap string pyval) :
  api_key_of w = Some key ->
  reply_dict (next_reply w 0) = Some d0 ->
  truthy (default PNone (d0 !! "taskId")) = true ->
  (forall i, exists d,
     reply_dict (next_reply w (S i)) = Some d /\ keeps_polling d = true) ->
  fst (get_capsolver_token fuel site_url w) = OutOfFuel /\
  sent (snd (get_capsolver_token fuel site_url w)) = sent w + 1 + fuel /\
  poll_count (log (snd (get_capsolver_token fuel site_url w)))
  = poll_count (log w) + fuel.
Proof.
  intros Hkey Hd0 Htid Hkeep.
  rewrite (broker_submission_dict _ _ _ _ _ Hkey Hd0), Htid.
  set (tid := default PNone (d0 !! "taskId")).
  set (ws := submitted (PStr key) site_url w).
  assert (Hloop : poll_loop fuel (PStr key) tid ws
                  = (OutOfFuel, polled_n fuel (PStr key) tid ws)).
  { rewrite <- (Nat.add_0_r fuel) at 1.
    rewrite poll_loop_keeps; [reflexivity|].
    intros i _. unfold ws. rewrite next_reply_submitted. apply Hkeep. }
  unfold try_except. rewrite Hloop. simpl.
  destruct (broker_world fuel (PStr key) tid site_url w) as (_ & _ & Hs & Hl).
  fold ws in Hs, Hl. split; [reflexivity|]. split; [exact Hs|].
  rewrite Hl. unfold poll_count, posts. rewrite omap_app, List.filter_app, length_app.
  f_equal. apply broker_events_polls.
Qed.

Lemma broker_never_gives_up_witness :
  fst (get_capsolver_token 50 "https://ahrefs.com/x" (configured solver_never_done))
    = OutOfFuel /\
  sent (snd (get_capsolver_token 50 "https://ahrefs.com/x"
               (configured solver_never_done))) = 0 + 1 + 50 /\
  poll_count (log (snd (get_capsolver_token 50 "https://ahrefs.com/x"
                          (configured solver_never_done))))
  = poll_count [] + 50.
Proof.
  apply (broker_never_gives_up 50 "https://ahrefs.com/x"
           (configured solver_never_done) "CAP-KEY" created_reply).
  - vm_compute. reflexivity.
  - vm_compute. reflexivity.
  - vm_compute. reflexivity.
  - intros i. exists ∅. split; vm_compute; reflexivity.
Defined.

(** ** Responses the code does not expect *)

Lemma get_token_for_url_raises (fuel : nat) (site_url : string) (w : world) (e : exn) :
  fst (get_capsolver_token fuel site_url w) = Raise e ->
  fst (get_token_for_url fuel site_url w) = Raise e.
Proof.
  intros H. rewrite get_token_for_url_run.
  destruct (get_capsolver_token fuel site_url w) as [[v | e' | ] w1]; simpl in *;
    try discriminate.
  exact H.
Qed.

Lemma get_token_for_url_falsy (fuel : nat) (site_url : string) (w : world) (v : pyval) :
  fst (get_capsolver_token fuel site_url w) = Ret v -> truthy v = false ->
  fst (get_token_for_url fuel site_url w)
  = Raise (Exception ("Failed to get verification token for URL: " ++ site_url)).
Proof.
  intros H Hv. rewrite get_token_for_url_run.
  destruct (get_capsolver_token fuel site_url w) as [[v' | e' | ] w1]; simpl in *;
    try discriminate.
  injection H as ->. now rewrite Hv.
Qed.

(** A turn that gets JSON other than an object raises on its first [.get]. *)
Lemma poll_once_not_object (api_key task_id : pyval) (w : world) (v : pyval) :
  reply_json (next_reply w 0) = Some v ->
  (forall d, v <> PDict d) ->
  fst (poll_once api_key task_id w) = Raise (no_get v).
Proof.
  unfold next_reply. rewrite Nat.add_0_r. intros Hv Hnd.
  run_poll_once w; simpl in Hv; try discriminate.
  - rewrite Hok in Hv. destruct body as [c | v']; [discriminate|].
    injection Hv as ->.
    unfold res_json, py_get, ret, raise, bind; simpl.
    destruct v as [ | b | n | s | l | d]; try reflexivity.
    now destruct (Hnd d).
  - rewrite Hok in Hv. destruct body; discriminate.
Qed.

Lemma broker_submission_not_object
    (fuel : nat) (site_url : string) (w : world) key (v : pyval) :
  api_key_of w = Some key ->
  reply_json (next_reply w 0) = Some v ->
  (forall d, v <> PDict d) ->
  get_capsolver_token fuel site_url w
  = (Raise (no_get v), submitted (PStr key) site_url w).
Proof.
  intros Hkey Hv Hnd. destruct (api_key_of_get w key Hkey) as [Hget Ht].
  unfold get_capsolver_token, bind at 1. rewrite Hget, Ht.
  change (negb true) with false. cbv iota.
  revert Hv. unfold next_reply. rewrite Nat.add_0_r.
  unfold try_except, bind, requests_post, submitted; cbv beta zeta.
  destruct (replies w (sent w)) as [kind msg | code reason body]; simpl;
    [discriminate|].
  destruct body as [c | v']; [discriminate|].
  destruct (http_ok code) eqn:Hok; [|discriminate]. intros [= ->].
  match goal with |- context [raise_for_status ?r ?w0] =>
    rewrite (http_ok_passes r w0 Hok) end.
  destruct v as [ | b | n | s | l | d]; try reflexivity.
  now destruct (Hnd d).
Qed.

(** A [ready] response that carries no usable token (no [solution], a
    [solution] without [token], or a falsy [token]) makes the broker return
    a falsy value, so [get_token_for_url] raises instead of handing an
    empty token on. *)
Theorem ready_without_token_fails
    (fuel n : nat) (site_url : string) (w : world) (key : string)
    (d0 d : gmap string pyval) :
  api_key_of w = Some key ->
  reply_dict (next_reply w 0) = Some d0 ->
  truthy (default PNone (d0 !! "taskId")) = true ->
  (forall i, i < n ->
     exists d', reply_dict (next_reply w (S i)) = Some d' /\ keeps_polling d' = true) ->
  reply_dict (next_reply w (S n)) = Some d ->
  status_is d "ready" = true ->
  (d !! "solution" = None \/
   exists solution, d !! "solution" = Some (PDict solution) /\
                    truthy (default PNone (solution !! "token")) = false) ->
  n < fuel ->
  (exists v, fst (get_capsolver_token fuel site_url w) = Ret v /\ truthy v = false) /\
  fst (get_token_for_url fuel site_url w)
  = Raise (Exception ("Failed to get verification token for URL: " ++ site_url)).
Proof.
  intros Hkey Hd0 Htid Hkeep Hd Hready Hsol Hlt.
  destruct (broker_after n fuel site_url w key d0 Hkey Hd0 Htid Hkeep Hlt)
    as [Hrun Hloop].
  set (tid := default PNone (d0 !! "taskId")) in *.
  set (ws := submitted (PStr key) site_url w) in *.
  assert (Hturn : exists v, truthy v = false /\
            fst (poll_once (PStr key) tid (polled_n n (PStr key) tid ws))
            = Ret (Some v)).
  { rewrite (poll_once_dict _ _ _ d).
    - rewrite Hready. destruct Hsol as [Hnone | (solution & Hs & Hfalsy)].
      + rewrite Hnone. simpl. rewrite lookup_empty. simpl. now exists PNone.
      + rewrite Hs. simpl. eauto.
    - rewrite next_reply_polled_n. unfold ws. rewrite next_reply_submitted.
      now rewrite Nat.add_0_r. }
  destruct Hturn as (v & Hv & Hturn). rewrite Hturn in Hloop.
  assert (Hbroker : fst (get_capsolver_token fuel site_url w) = Ret v).
  { rewrite Hrun. erewrite try_except_ret; [|exact Hloop]. reflexivity. }
  split; [eauto|]. now apply get_token_for_url_falsy with (v := v).
Qed.

Lemma ready_without_token_fails_witness :
  (exists v,
     fst (get_capsolver_token 2 "https://ahrefs.com/x"
            (configured solver_ready_without_solution)) = Ret v /\
     truthy v = false) /\
  fst (get_token_for_url 2 "https://ahrefs.com/x"
         (configured solver_ready_without_solution))
  = Raise (Exception ("Failed to get verification token for URL: "
                      ++ "https://ahrefs.com/x")).
Proof.
  apply (ready_without_token_fails 2 0 "https://ahrefs.com/x"
           (configured solver_ready_without_solution) "CAP-KEY"
           created_reply ready_reply_without_solution);
    try (vm_compute; reflexivity).
  - intros i Hi. lia.
  - left. vm_compute. reflexivity.
  - lia.
Defined.

(** JSON that is not an object where the code calls [.get] (the submission
    response, a poll response, or the [solution] of a [ready] response,
    [null] included) makes [get_capsolver_token] raise [AttributeError].
    This is no [RequestException], so the [except] clause lets it through,
    and so does [get_token_for_url]. *)
Theorem non_object_json_raises (fuel : nat) (site_url : string) (w : world) (key : string) :
  api_key_of w = Some key ->
  (forall v,
     reply_json (next_reply w 0) = Some v -> (forall d, v <> PDict d) ->
     fst (get_token_for_url fuel site_url w) = Raise (no_get v) /\
     is_RequestException (no_get v) = false) /\
  (forall d0 n v,
     reply_dict (next_reply w 0) = Some d0 ->
     truthy (default PNone (d0 !! "taskId")) = true ->
     (forall i, i < n ->
        exists d', reply_dict (next_reply w (S i)) = Some d' /\
                   keeps_polling d' = true) ->
     n < fuel ->
     (reply_json (next_reply w (S n)) = Some v \/
      exists d, reply_dict (next_reply w (S n)) = Some d /\
                status_is d "ready" = true /\ d !! "solution" = Some v) ->
     (forall d, v <> PDict d) ->
     fst (get_token_for_url fuel site_url w) = Raise (no_get v)).
Proof.
  intros Hkey. split.
  - intros v Hv Hnd. split; [|reflexivity].
    apply get_token_for_url_raises.
    now rewrite (broker_submission_not_object fuel site_url w key v Hkey Hv Hnd).
  - intros d0 n v Hd0 Htid Hkeep Hlt Hv Hnd.
    apply get_token_for_url_raises.
    destruct (broker_after n fuel site_url w key d0 Hkey Hd0 Htid Hkeep Hlt)
      as [Hrun Hloop].
    set (tid := default PNone (d0 !! "taskId")) in *.
    set (ws := submitted (PStr key) site_url w) in *.
    assert (Hnext : next_reply (polled_n n (PStr key) tid ws) 0 = next_reply w (S n)).
    { rewrite next_reply_polled_n. unfold ws. rewrite next_reply_submitted.
      now rewrite Nat.add_0_r. }
    assert (Hturn : fst (poll_once (PStr key) tid (polled_n n (PStr key) tid ws))
                    = Raise (no_get v)).
    { destruct Hv as [Hv | (d & Hd & Hready & Hs)].
      - apply poll_once_not_object; [now rewrite Hnext | exact Hnd].
      - rewrite (poll_once_dict _ _ _ d); [|now rewrite Hnext].
        rewrite Hready, Hs. simpl.
        destruct v as [ | b | m | s | l | d']; try reflexivity.
        now destruct (Hnd d'). }
    rewrite Hturn in Hloop. rewrite Hrun. unfold try_except. rewrite Hloop.
    reflexivity.
Qed.

Lemma non_object_json_raises_witness :
  (fst (get_token_for_url 2 "https://ahrefs.com/x" (configured solver_answers_list))
   = Raise (no_get (PList [])) /\
   is_RequestException (no_get (PList [])) = false) /\
  fst (get_token_for_url 2 "https://ahrefs.com/x" (configured solver_ready_null_solution))
  = Raise (no_get PNone).
Proof.
  split.
  - apply (proj1 (non_object_json_raises 2 "https://ahrefs.com/x"
                    (configured solver_answers_list) "CAP-KEY" eq_refl)).
    + vm_compute. reflexivity.
    + discriminate.
  - apply (proj2 (non_object_json_raises 2 "https://ahrefs.com/x"
                    (configured solver_ready_null_solution) "CAP-KEY" eq_refl)
             created_reply 0 PNone); try (vm_compute; reflexivity).
    + intros i Hi. lia.
    + lia.
    + right. exists ready_reply_null_solution. split_and!; vm_compute; reflexivity.
    + discriminate.
Defined.

(** ** [quote] can be undone *)

Lemma quote_safe_not_percent (c : ascii) :
  quote_safe c = true -> Ascii.eqb c "%" = false.
Proof.
  destruct (Ascii.eqb c "%") eqn:E; [|reflexivity].
  apply Ascii.eqb_eq in E. subst. discriminate.
Qed.

Lemma unquote_plain (c : ascii) (t : string) :
  Ascii.eqb c "%" = false -> unquote (String c t) = String c (unquote t).
Proof.
  intros H. destruct t as [|h [|l rest]]; simpl; try reflexivity. now rewrite H.
Qed.

Lemma unquote_escape (c : ascii) (t : string) :
  unquote (percent_escape c ++ t) = String c (unquote t).
Proof. destruct c as [[] [] [] [] [] [] [] []]; reflexivity. Qed.

(** Decoding an encoded string gives the string back. *)
Lemma unquote_quote (s : string) : unquote (quote s) = s.
Proof.
  induction s as [|c s IH]; [reflexivity|].
  rewrite quote_cons. destruct (quote_safe c) eqn:Hs.
  - rewrite string_app_cons. change ("" ++ quote s) with (quote s).
    rewrite unquote_plain by now apply quote_safe_not_percent.
    now rewrite IH.
  - now rewrite unquote_escape, IH.
Qed.

(** ** How much [quote] changes *)

Lemma string_length_app (a b : string) :
  String.length (a ++ b) = String.length a + String.length b.
Proof.
  induction a as [|x a IH]; [reflexivity|].
  rewrite string_app_cons. simpl. now rewrite IH.
Qed.

Lemma percent_escape_length (c : ascii) : String.length (percent_escape c) = 3.
Proof. reflexivity. Qed.

(** The length of [quote s], both in bytes. *)
Lemma quote_length (s : string) :
  String.length (quote s) = String.length s + 2 * escaped_count s.
Proof.
  induction s as [|c s IH]; [reflexivity|].
  rewrite quote_cons, string_length_app, IH. simpl escaped_count. simpl String.length.
  destruct (quote_safe c); simpl; lia.
Qed.

Lemma escaped_count_safe (s : string) :
  escaped_count s = 0 <-> forallb quote_safe (list_ascii_of_string s) = true.
Proof.
  induction s as [|c s IH]; simpl; [tauto|].
  destruct (quote_safe c); simpl; [exact IH|]. split; [lia | discriminate].
Qed.

(** [quote] leaves a string as it is exactly when every byte of it is
    safe. *)
Lemma quote_fixes_safe (s : string) :
  quote s = s <-> forallb quote_safe (list_ascii_of_string s) = true.
Proof.
  rewrite <- escaped_count_safe. split.
  - intros H. assert (Hl := quote_length s). rewrite H in Hl. lia.
  - intros H. induction s as [|c s IH]; [reflexivity|].
    simpl in H. rewrite quote_cons.
    destruct (quote_safe c); [|discriminate].
    rewrite string_app_cons. change ("" ++ quote s) with (quote s).
    now rewrite IH.
Qed.

Lemma quote_injective (k1 k2 : string) : quote k1 = quote k2 -> k1 = k2.
Proof.
  intros H. rewrite <- (unquote_quote k1), <- (unquote_quote k2). now rewrite H.
Qed.

(** ** More on the tools *)

Section MoreTools.

Variable fuel : nat.
Variable get_signature_and_overview_impl :
  pyval -> string -> result (pyval * pyval * pyval).
Variable get_backlinks_impl : pyval -> pyval -> string -> result pyval.
Variable get_keyword_ideas_impl : pyval -> string -> string -> string -> result pyval.
Variable check_traffic_impl : pyval -> string -> string -> string -> result pyval.
Variable get_keyword_difficulty_impl : pyval -> string -> string -> result pyval.

Local Abbreviation run_tool :=
  (invoke fuel get_signature_and_overview_impl get_backlinks_impl
          get_keyword_ideas_impl check_traffic_impl get_keyword_difficulty_impl).
Local Abbreviation then_tool :=
  (after_token get_signature_and_overview_impl get_backlinks_impl
               get_keyword_ideas_impl check_traffic_impl get_keyword_difficulty_impl).

(** A credential set to the empty string counts as no credential: every
    tool fails with the console line about the missing variable, and no
    request is sent. *)
Theorem empty_api_key_is_missing (c : tool_call) (w : world) :
  environ w !! "CAPSOLVER_API_KEY" = Some "" ->
  run_tool c w
  = (Raise (Exception ("Failed to get verification token for URL: " ++ tool_url c)),
     record (EvPrint "Error: CAPSOLVER_API_KEY environment variable not set.") w) /\
  posts (log (snd (run_tool c w))) = posts (log w) /\
  sent (snd (run_tool c w)) = sent w.
Proof.
  intros Henv.
  assert (Hkey : api_key_of w = None) by (unfold api_key_of; now rewrite Henv).
  assert (Hrun : run_tool c w
                 = (Raise (Exception ("Failed to get verification token for URL: "
                                      ++ tool_url c)),
                    record (EvPrint
                      "Error: CAPSOLVER_API_KEY environment variable not set.") w)).
  { rewrite run_tool_bind. unfold bind.
    rewrite get_token_for_url_run, (broker_unconfigured _ _ _ Hkey). reflexivity. }
  rewrite Hrun. split; [reflexivity|]. simpl.
  unfold posts. rewrite omap_app. simpl. now rewrite app_nil_r.
Qed.

(** Once they hold a token, [keyword_generator], [get_traffic] and
    [keyword_difficulty] make one upstream call and return its outcome as
    it is, a raised exception included.  The upstream function gets the
    token and the arguments as the caller gave them (the keyword not
    encoded), with the defaults [us], [Google], [None] and [subdomains]
    filled in; [check_traffic] gets [mode] before [country]. *)
Theorem tools_return_upstream_outcome (w w1 : world) (token : pyval) :
  (forall keyword country search_engine,
     get_token_for_url fuel
       (tool_url (Call_keyword_generator keyword country search_engine)) w
     = (Ret token, w1) ->
     run_tool (Call_keyword_generator keyword country search_engine) w
     = (get_keyword_ideas_impl token keyword (default "us" country)
          (default "Google" search_engine),
        record (EvCall Fn_get_keyword_ideas
                  [token; PStr keyword; PStr (default "us" country);
                   PStr (default "Google" search_engine)]) w1)) /\
  (forall domain_or_url country mode,
     get_token_for_url fuel (tool_url (Call_get_traffic domain_or_url country mode)) w
     = (Ret token, w1) ->
     run_tool (Call_get_traffic domain_or_url country mode) w
     = (check_traffic_impl token domain_or_url (default "subdomains" mode)
          (default "None" country),
        record (EvCall Fn_check_traffic
                  [token; PStr domain_or_url; PStr (default "subdomains" mode);
                   PStr (default "None" country)]) w1)) /\
  (forall keyword country,
     get_token_for_url fuel (tool_url (Call_keyword_difficulty keyword country)) w
     = (Ret token, w1) ->
     run_tool (Call_keyword_difficulty keyword country) w
     = (get_keyword_difficulty_impl token keyword (default "us" country),
        record (EvCall Fn_get_keyword_difficulty
                  [token; PStr keyword; PStr (default "us" country)]) w1)).
Proof.
  split_and!; intros; rewrite run_tool_bind; unfold bind;
    match goal with H : get_token_for_url _ _ _ = _ |- _ => rewrite H end;
    reflexivity.
Qed.

(** [get_backlinks_list] lets the exceptions of its two upstream calls
    through as they are: one raised by [get_signature_and_overview] ends
    the tool before [get_backlinks] is called, one raised by
    [get_backlinks] ends it without a result. *)
Theorem backlinks_list_propagates_errors
    (domain : string) (w w1 : world) (token : pyval) (e : exn) :
  get_token_for_url fuel (tool_url (Call_get_backlinks_list domain)) w
    = (Ret token, w1) ->
  (get_signature_and_overview_impl token domain = Raise e ->
   run_tool (Call_get_backlinks_list domain) w
   = (Raise e,
      record (EvCall Fn_get_signature_and_overview [token; PStr domain]) w1)) /\
  (forall signature valid_until overview_data,
     get_signature_and_overview_impl token domain
       = Ret (signature, valid_until, overview_data) ->
     truthy signature = true -> truthy valid_until = true ->
     get_backlinks_impl signature valid_until domain = Raise e ->
     run_tool (Call_get_backlinks_list domain) w
     = (Raise e,
        record (EvCall Fn_get_backlinks [signature; valid_until; PStr domain])
          (record (EvCall Fn_get_signature_and_overview [token; PStr domain]) w1))).
Proof.
  intros Htok. split.
  - intros Hsig. rewrite run_tool_bind. unfold bind. rewrite Htok.
    simpl. unfold bind, get_signature_and_overview, upstream. now rewrite Hsig.
  - intros signature valid_until overview_data Hsig Hs Hv Hbl.
    rewrite run_tool_bind. unfold bind. rewrite Htok.
    simpl. unfold bind, get_signature_and_overview, get_backlinks, upstream.
    rewrite Hsig, Hs, Hv. simpl. now rewrite Hbl.
Qed.

Lemma payload_website_url_create (api_key : pyval) (site_url : string) :
  payload_website_url (create_task_payload api_key site_url) = Some site_url.
Proof. reflexivity. Qed.

(** With the credential set, the URL a tool asks the solver a token for is
    the URL the tool built. *)
Lemma asked_url_tool (c : tool_call) (w : world) (key : string) :
  api_key_of w = Some key ->
  asked_url w (snd (run_tool c w)) = Some (tool_url c).
Proof.
  intros Hkey.
  destruct (run_tool_first_event fuel get_signature_and_overview_impl
              get_backlinks_impl get_keyword_ideas_impl check_traffic_impl
              get_keyword_difficulty_impl c w key Hkey) as [rest Hlog].
  unfold asked_url. rewrite Hlog, drop_app_length. simpl.
  exact (payload_website_url_create (PStr key) (tool_url c)).
Qed.

(** For two keywords that differ, [keyword_generator] asks the solver for
    two URLs that differ, whatever the other arguments, provided the
    country is the same; so does [keyword_difficulty].  The encoding of the
    keyword never maps two keywords to one URL. *)
Theorem keyword_tools_ask_distinct_urls
    (k1 k2 : string) (country se1 se2 : option string) (w : world) (key : string) :
  api_key_of w = Some key ->
  k1 <> k2 ->
  is_Some (asked_url w (snd (run_tool (Call_keyword_generator k1 country se1) w))) /\
  asked_url w (snd (run_tool (Call_keyword_generator k1 country se1) w))
  <> asked_url w (snd (run_tool (Call_keyword_generator k2 country se2) w)) /\
  is_Some (asked_url w (snd (run_tool (Call_keyword_difficulty k1 country) w))) /\
  asked_url w (snd (run_tool (Call_keyword_difficulty k1 country) w))
  <> asked_url w (snd (run_tool (Call_keyword_difficulty k2 country) w)).
Proof.
  intros Hkey Hne. rewrite !(asked_url_tool _ _ _ Hkey). split_and!; eauto.
  - intros [= H]. apply Hne, quote_injective.
    now repeat apply (inj (String.append _)) in H.
  - intros [= H]. apply Hne, quote_injective.
    now repeat apply (inj (String.append _)) in H.
Qed.

(** A keyword tool asks the solver for a URL that ends in the keyword as
    the caller gave it exactly when every byte of the keyword is a letter,
    a digit or one of [_ . - ~ /]; any other keyword appears changed.  The
    empty keyword leaves [input=] empty. *)
Theorem keyword_verbatim_iff_safe
    (keyword : string) (country search_engine : option string)
    (w : world) (key : string) :
  api_key_of w = Some key ->
  (asked_url w (snd (run_tool (Call_keyword_generator keyword country search_engine) w))
   = Some ("https://ahrefs.com/keyword-generator/?country=" ++ default "us" country
           ++ "&input=" ++ keyword)
   <-> forallb quote_safe (list_ascii_of_string keyword) = true) /\
  (asked_url w (snd (run_tool (Call_keyword_difficulty keyword country) w))
   = Some ("https://ahrefs.com/keyword-difficulty/?country=" ++ default "us" country
           ++ "&input=" ++ keyword)
   <-> forallb quote_safe (list_ascii_of_string keyword) = true).
Proof.
  intros Hkey. rewrite !(asked_url_tool _ _ _ Hkey), <- quote_fixes_safe.
  unfold tool_url. split; split.
  - intros [= H]. now repeat apply (inj (String.append _)) in H.
  - now intros ->.
  - intros [= H]. now repeat apply (inj (String.append _)) in H.
  - now intros ->.
Qed.

End MoreTools.


Lemma empty_api_key_is_missing_witness :
  serve 3 (Call_keyword_generator "best seo" None None)
        (empty_key solver_pending_then_ready)
  = (Raise (Exception ("Failed to get verification token for URL: "
       ++ "https://ahrefs.com/keyword-generator/?country=us&input=best%20seo")),
     record (EvPrint "Error: CAPSOLVER_API_KEY environment variable not set.")
            (empty_key solver_pending_then_ready)) /\
  posts (log (snd (serve 3 (Call_keyword_generator "best seo" None None)
                         (empty_key solver_pending_then_ready)))) = posts [] /\
  sent (snd (serve 3 (Call_keyword_generator "best seo" None None)
                   (empty_key solver_pending_then_ready))) = 0.
Proof.
  apply (empty_api_key_is_missing 3 signature_double backlinks_double ideas_double
           traffic_double difficulty_double
           (Call_keyword_generator "best seo" None None)
           (empty_key solver_pending_then_ready)).
  reflexivity.
Defined.

Lemma tools_return_upstream_outcome_witness :
  let w := configured solver_pending_then_ready in
  fst (serve 3 (Call_keyword_generator "best seo" None None) w)
    = Ret (PList [PStr "best seo tips"]) /\
  fst (serve 3 (Call_get_traffic "example.com" None None) w)
    = Ret (PDict {["traffic" := PInt 1200]}) /\
  fst (serve 3 (Call_keyword_difficulty "best seo" None) w)
    = Ret (PDict {["difficulty" := PInt 42]}).
Proof.
  intros w.
  pose proof (tools_return_upstream_outcome 3 signature_double backlinks_double
                ideas_double traffic_double difficulty_double w) as H.
  split_and!.
  - unfold serve.
    rewrite (proj1 (H (snd (get_token_for_url 3
                (tool_url (Call_keyword_generator "best seo" None None)) w))
              (PStr "tok-abc")) "best seo" None None);
      [reflexivity | vm_compute; reflexivity].
  - unfold serve.
    rewrite (proj1 (proj2 (H (snd (get_token_for_url 3
                (tool_url (Call_get_traffic "example.com" None None)) w))
              (PStr "tok-abc"))) "example.com" None None);
      [reflexivity | vm_compute; reflexivity].
  - unfold serve.
    rewrite (proj2 (proj2 (H (snd (get_token_for_url 3
                (tool_url (Call_keyword_difficulty "best seo" None)) w))
              (PStr "tok-abc"))) "best seo" None);
      [reflexivity | vm_compute; reflexivity].
Defined.

Lemma backlinks_list_propagates_errors_witness :
  let w := configured solver_pending_then_ready in
  let w1 := snd (get_token_for_url 3 (tool_url (Call_get_backlinks_list "example.com")) w) in
  invoke 3 failing_signature_double backlinks_double ideas_double traffic_double
         difficulty_double (Call_get_backlinks_list "example.com") w
  = (Raise upstream_error,
     record (EvCall Fn_get_signature_and_overview [PStr "tok-abc"; PStr "example.com"])
            w1) /\
  invoke 3 signature_double failing_backlinks_double ideas_double traffic_double
         difficulty_double (Call_get_backlinks_list "example.com") w
  = (Raise upstream_error,
     record (EvCall Fn_get_backlinks
               [PStr "sig-1"; PInt 1893456000; PStr "example.com"])
       (record (EvCall Fn_get_signature_and_overview
                  [PStr "tok-abc"; PStr "example.com"]) w1)).
Proof.
  intros w w1. split.
  - apply (proj1 (backlinks_list_propagates_errors 3 failing_signature_double
                    backlinks_double ideas_double traffic_double difficulty_double
                    "example.com" w w1 (PStr "tok-abc") upstream_error
                    ltac:(vm_compute; reflexivity))).
    reflexivity.
  - apply (proj2 (backlinks_list_propagates_errors 3 signature_double
                    failing_backlinks_double ideas_double traffic_double
                    difficulty_double
                    "example.com" w w1 (PStr "tok-abc") upstream_error
                    ltac:(vm_compute; reflexivity))
             (PStr "sig-1") (PInt 1893456000) (PDict {["domain_rating" := PInt 57]}));
      reflexivity.
Defined.

Lemma keyword_tools_ask_distinct_urls_witness :
  let w := configured solver_pending_then_ready in
  is_Some (asked_url w (snd (serve 3 (Call_keyword_generator "a b" None None) w))) /\
  asked_url w (snd (serve 3 (Call_keyword_generator "a b" None None) w))
  <> asked_url w (snd (serve 3 (Call_keyword_generator "a%20b" None (Some "Bing")) w)) /\
  is_Some (asked_url w (snd (serve 3 (Call_keyword_difficulty "a b" None) w))) /\
  asked_url w (snd (serve 3 (Call_keyword_difficulty "a b" None) w))
  <> asked_url w (snd (serve 3 (Call_keyword_difficulty "a%20b" None) w)).
Proof.
  intros w.
  apply (keyword_tools_ask_distinct_urls 3 signature_double backlinks_double
           ideas_double traffic_double difficulty_double
           "a b" "a%20b" None None (Some "Bing") w "CAP-KEY").
  - vm_compute. reflexivity.
  - discriminate.
Defined.

Lemma keyword_verbatim_iff_safe_witness :
  let w := configured solver_pending_then_ready in
  asked_url w (snd (serve 3 (Call_keyword_generator "seo-tools/2024" None None) w))
  = Some ("https://ahrefs.com/keyword-generator/?country=" ++ default "us" None
          ++ "&input=" ++ "seo-tools/2024") /\
  asked_url w (snd (serve 3 (Call_keyword_difficulty "" None) w))
  = Some ("https://ahrefs.com/keyword-difficulty/?country=" ++ default "us" None
          ++ "&input=" ++ "").
Proof.
  intros w. split.
  - apply (proj1 (keyword_verbatim_iff_safe 3 signature_double backlinks_double
                    ideas_double traffic_double difficulty_double
                    "seo-tools/2024" None None w "CAP-KEY" eq_refl)).
    reflexivity.
  - apply (proj2 (keyword_verbatim_iff_safe 3 signature_double backlinks_double
                    ideas_double traffic_double difficulty_double
                    "" None None w "CAP-KEY" eq_refl)).
    reflexivity.
Defined.
